(** * pdbhelper: stack-frame symbol resolution and module/PDB matching

    A shallow embedding of [resolve_stacktrace/pdbhelper.cpp].  The file has
    three functions: [ResolveStackFrameSymbolsInternal],
    [ResolveStackFrameSymbols] and [MatchModuleWithPdbFile].  They drive the
    DIA debug-information provider through COM interfaces; here every COM
    object is a record holding the answers of its methods, the calls that
    acquire and release objects are logged in a trace, and the jumps to the
    [Exit] / [Cleanup] labels are calls to a local function that stands for
    the labelled block. *)

From Stdlib Require Import ZArith List String Ascii Bool Lia.
From Stdlib Require Import Strings.Byte.
Import ListNotations.

Local Open Scope string_scope.
Local Open Scope list_scope.
Local Open Scope Z_scope.

(** ** Scalar types of the Windows headers *)

Definition HRESULT := Z.   (* 32-bit signed *)
Definition DWORD := Z.     (* 32-bit unsigned *)
Definition ULONG := Z.     (* 32-bit unsigned *)
Definition LONG := Z.      (* 32-bit signed *)

Definition S_OK : HRESULT := 0.
Definition S_FALSE : HRESULT := 1.
Definition E_FAIL : HRESULT := -2147467259.          (* 0x80004005 *)
Definition E_PDB_NOT_FOUND : HRESULT := -2140340219. (* 0x806D0005 *)

(** [#define FAILED(hr) (((HRESULT)(hr)) < 0)] *)
Definition FAILED (hr : HRESULT) : bool := hr <? 0.

(** Conversion of a [DWORD] to [LONG], as in [*LineNumberOut = LineNumber]. *)
Definition DWORD_to_LONG (d : DWORD) : LONG :=
  (d + 2147483648) mod 4294967296 - 2147483648.

(** The values a [LONG] holds. *)
Definition in_LONG (z : Z) : Prop := -2147483648 <= z < 2147483648.

(** Conversion of a 32-bit signed value to [unsigned long], as done for the
    argument of a [%lX] conversion. *)
Definition to_unsigned_long (x : Z) : Z := x mod 4294967296.

(** A [BSTR] is a pointer to a counted string; [None] is the NULL pointer. *)
Definition BSTR := option string.

Definition SysStringLen (b : BSTR) : Z :=
  match b with
  | None => 0
  | Some s => Z.of_nat (String.length s)
  end.

Definition SysAllocString (s : string) : BSTR := Some s.

(** ** Formatting of the diagnostic text *)

Definition hex_digit (d : Z) : ascii :=
  match d with
  | 0 => "0" | 1 => "1" | 2 => "2" | 3 => "3" | 4 => "4" | 5 => "5"
  | 6 => "6" | 7 => "7" | 8 => "8" | 9 => "9" | 10 => "A" | 11 => "B"
  | 12 => "C" | 13 => "D" | 14 => "E" | _ => "F"
  end%char.

Fixpoint hex_digits (width : nat) (n : Z) (acc : string) : string :=
  match width with
  | O => acc
  | S w =>
      let acc' := String (hex_digit (n mod 16)) acc in
      if n / 16 =? 0 then acc' else hex_digits w (n / 16) acc'
  end.

(** [%lX]: upper-case hexadecimal of an [unsigned long] (at most 8 digits),
    without leading zeros. *)
Definition fmt_lX (x : Z) : string := hex_digits 8 (to_unsigned_long x) "".

(** [_countof(ErrorMessageFmtBuffer)] *)
Definition countof_ErrorMessageFmtBuffer : nat := 256.

(** [StringCchPrintfW(ErrorMessageFmtBuffer, 256, L"<what> (HRESULT: 0x%lX)", Hr)]:
    the text is cut after 255 characters, the last slot holding the
    terminator.  [what] is the part of the format before [(HRESULT:]. *)
Definition StringCchPrintfW (what : string) (Hr : HRESULT) : string :=
  substring 0 (countof_ErrorMessageFmtBuffer - 1)
    (what ++ "(HRESULT: 0x" ++ fmt_lX Hr ++ ")")%string.

(** ** The GUID and [memcmp] *)

(** A [GUID] is used by the code only through [memcmp] over its
    [sizeof(GUID)] = 16 bytes, so it is kept as its object representation. *)
Definition GUID := list byte.
Definition sizeof_GUID : nat := 16.

(** [memcmp(p, q, n)]: the sign of the first differing byte, compared as
    [unsigned char]; 0 when the first [n] bytes agree. *)
Fixpoint memcmp (p q : list byte) (n : nat) : Z :=
  match n with
  | O => 0
  | S n' =>
      match p, q with
      | a :: p', b :: q' =>
          match N.compare (Byte.to_N a) (Byte.to_N b) with
          | Lt => -1
          | Gt => 1
          | Eq => memcmp p' q' n'
          end
      | [], [] => 0
      | [], _ :: _ => -1
      | _ :: _, [] => 1
      end
  end.

(** ** The provider's COM interfaces

    Each object is the record of what its methods answer.  For a method with
    an out-parameter the answer is the returned [HRESULT] together with the
    content of the out-parameter after the call; an out-pointer is [None]
    when it is NULL after the call. *)

Record IDiaSourceFile := {
  get_fileName : HRESULT * BSTR
}.

Record IDiaLineNumber := {
  get_lineNumber : HRESULT * DWORD;
  get_sourceFile : HRESULT * option IDiaSourceFile
}.

Record IDiaEnumLineNumbers := {
  (* Next(celt, &rgelt, &celtFetched) *)
  Next : ULONG -> HRESULT * option IDiaLineNumber * ULONG
}.

Record IDiaSymbol := {
  get_undecoratedName : HRESULT * BSTR;
  get_name : HRESULT * BSTR;
  get_guid : HRESULT * GUID;
  get_signature : HRESULT * DWORD;
  get_age : HRESULT * DWORD
}.

Inductive SymTagEnum := SymTagFunction.

Record IDiaSession := {
  findSymbolByRVAEx : DWORD -> SymTagEnum -> HRESULT * option IDiaSymbol * LONG;
  findLinesByRVA : DWORD -> DWORD -> HRESULT * option IDiaEnumLineNumbers;
  get_globalScope : HRESULT * option IDiaSymbol
}.

Record IDiaDataSource := {
  loadDataFromPdb : string -> HRESULT;
  loadDataForExe : string -> HRESULT;
  openSession : HRESULT * option IDiaSession
}.

(** The COM runtime: [CoInitialize(NULL)] and the [n]-th
    [CoCreateInstance(__uuidof(DiaSource), ...)] of a call. *)
Record COM := {
  CoInitialize : HRESULT;
  CoCreateInstance : nat -> HRESULT * option IDiaDataSource
}.

(** ** Traces of acquisitions and releases *)

Inductive Handle :=
| HDataSource (n : nat)
| HSession (n : nat)
| HGlobalScope (n : nat)
| HSymbol
| HEnumLineNumbers
| HLineNumber
| HSourceFile.

Inductive Event :=
| EvCoInitialize
| EvCoUninitialize
| EvAcquire (h : Handle)
| EvRelease (h : Handle).

(** ** A small monad: a trace writer that can fault

    [Fault] is the dereference of a NULL interface pointer: the call never
    returns. *)

Inductive Flow (A : Type) :=
| Val (a : A) (tr : list Event)
| Fault (tr : list Event).
Arguments Val {A} a tr.
Arguments Fault {A} tr.

Definition M (A : Type) := list Event -> Flow A.

Definition ret {A} (a : A) : M A := fun tr => Val a tr.

Definition bind {A B} (m : M A) (f : A -> M B) : M B :=
  fun tr => match m tr with
            | Val a tr' => f a tr'
            | Fault tr' => Fault tr'
            end.

Definition emit (e : Event) : M unit := fun tr => Val tt (tr ++ [e]).

Declare Scope pdb_scope.
Delimit Scope pdb_scope with pdb.
Notation "x <- m ;; k" := (bind m (fun x => k))
  (at level 61, m at next level, right associativity) : pdb_scope.
Notation "' p <- m ;; k" := (bind m (fun x => let 'p := x in k))
  (at level 61, p pattern, m at next level, right associativity) : pdb_scope.
Notation "m ;; k" := (bind m (fun _ => k))
  (at level 61, right associativity) : pdb_scope.
Local Open Scope pdb_scope.

(** An interface pointer: the identity of the object and the object. *)
Definition Ptr (T : Type) := option (Handle * T).

(** A call that hands out an interface pointer through an out-parameter. *)
Definition out_ptr {T} (h : Handle) (p : option T) : M (Ptr T) :=
  match p with
  | Some o => emit (EvAcquire h) ;; ret (Some (h, o))
  | None => ret None
  end.

(** [p->method(...)] *)
Definition deref {T} (p : Ptr T) : M T :=
  match p with
  | Some (_, o) => ret o
  | None => fun tr => Fault tr
  end.

(** [p->Release()] *)
Definition Release {T} (p : Ptr T) : M unit :=
  match p with
  | Some (h, _) => emit (EvRelease h)
  | None => fun tr => Fault tr
  end.

(** [if (p != NULL) p->Release();] *)
Definition Release_if_not_NULL {T} (p : Ptr T) : M unit :=
  match p with
  | Some _ => Release p
  | None => ret tt
  end.

(** What the call returns, if it returns. *)
Definition returned {A} (f : Flow A) : option A :=
  match f with
  | Val a _ => Some a
  | Fault _ => None
  end.

Definition trace_of {A} (f : Flow A) : list Event :=
  match f with
  | Val _ tr => tr
  | Fault tr => tr
  end.

(** ** ResolveStackFrameSymbolsInternal *)

(** The out-parameters of [ResolveStackFrameSymbols], which the internal
    function shares with it. *)
Record ResolveOut := {
  FileNameOut : BSTR;
  LineNumberOut : LONG;
  FunctionNameOut : BSTR;
  DisplacementOut : LONG;
  ErrorMessageOut : BSTR
}.

Definition set_ErrorMessageOut (out : ResolveOut) (msg : BSTR) : ResolveOut :=
  {| FileNameOut := FileNameOut out;
     LineNumberOut := LineNumberOut out;
     FunctionNameOut := FunctionNameOut out;
     DisplacementOut := DisplacementOut out;
     ErrorMessageOut := msg |}.

(** Lines 85-90, "Get the function name". *)
Definition GetFunctionName (Symbol : IDiaSymbol) : BSTR :=
  let '(HrU, FunctionName) := get_undecoratedName Symbol in
  if negb (HrU =? S_OK) || (SysStringLen FunctionName =? 0) then
    let '(HrN, FunctionName) := get_name Symbol in
    if negb (HrN =? S_OK) || (SysStringLen FunctionName =? 0) then
      SysAllocString "(None)"
    else FunctionName
  else FunctionName.

(** [Session] is the object behind the (non-NULL) pointer the caller passes;
    [ErrorMessageFmtBuffer] is what the function's own, uninitialised, buffer
    holds when the function is entered.  The [SysFreeString] calls of the
    [Exit] block have no counterpart: strings are values here. *)
Definition ResolveStackFrameSymbolsInternal (Session : IDiaSession) (Rva : DWORD)
    (out : ResolveOut) (ErrorMessageFmtBuffer : string) : M (HRESULT * ResolveOut) :=
  let Exit (Hr : HRESULT) (DiaSourceFile : Ptr IDiaSourceFile)
           (ErrorMessageFmtBuffer : string) (out : ResolveOut) : M (HRESULT * ResolveOut) :=
    Release_if_not_NULL DiaSourceFile ;;
    ret (Hr, set_ErrorMessageOut out (SysAllocString ErrorMessageFmtBuffer)) in
  (* Find the Symbol by RVA *)
  let '(Hr, pSymbol, Displacement) := findSymbolByRVAEx Session Rva SymTagFunction in
  Symbol <- out_ptr HSymbol pSymbol ;;
  if FAILED Hr then
    Exit Hr None (StringCchPrintfW "Failed to find Symbol by RVA " Hr) out
  else
  (* Get the function name *)
  sym <- deref Symbol ;;
  let FunctionName := GetFunctionName sym in
  (* Retrieve line number: the status of this call is not stored in Hr *)
  let '(HrLines, pEnum) := findLinesByRVA Session Rva 1 in
  DiaEnumLineNumbers <- out_ptr HEnumLineNumbers pEnum ;;
  if FAILED HrLines then
    Exit Hr None (StringCchPrintfW "Failed to find line info by RVA " Hr) out
  else
  enum <- deref DiaEnumLineNumbers ;;
  let '(Hr, pLine, Count) := Next enum 1 in
  DiaLineNumber <- out_ptr HLineNumber pLine ;;
  if FAILED Hr || negb (Count =? 1) then
    Exit Hr None (StringCchPrintfW "Failed to enumerate line number " Hr) out
  else
  (* Retrieve line number details *)
  line <- deref DiaLineNumber ;;
  let '(Hr, LineNumber) := get_lineNumber line in
  if FAILED Hr then
    Exit Hr None (StringCchPrintfW "Failed to get line number " Hr) out
  else
  (* Retrieve source file name *)
  let '(Hr, pSourceFile) := get_sourceFile line in
  DiaSourceFile <- out_ptr HSourceFile pSourceFile ;;
  if FAILED Hr then
    Exit Hr DiaSourceFile (StringCchPrintfW "Failed to get source file " Hr) out
  else
  (* Retrieve source file name path *)
  src <- deref DiaSourceFile ;;
  let '(Hr, FileName) := get_fileName src in
  if FAILED Hr then
    Exit Hr DiaSourceFile (StringCchPrintfW "Failed to get source file name " Hr) out
  else
  let out := {| FileNameOut := FileName;
                LineNumberOut := DWORD_to_LONG LineNumber;
                FunctionNameOut := FunctionName;
                DisplacementOut := Displacement;
                ErrorMessageOut := ErrorMessageOut out |} in
  Exit S_OK DiaSourceFile ErrorMessageFmtBuffer out.

(** ** ResolveStackFrameSymbols *)

(** "Initialize output parameters" *)
Definition ResolveOut_init : ResolveOut :=
  {| FileNameOut := None;
     LineNumberOut := 0;
     FunctionNameOut := None;
     DisplacementOut := 0;
     ErrorMessageOut := None |}.

(** [ErrorMessageFmtBuffer] and [InternalFmtBuffer] are the contents, on
    entry, of the uninitialised format buffers of this function and of
    [ResolveStackFrameSymbolsInternal]. *)
Definition ResolveStackFrameSymbols (com : COM) (PdbFilePath : string) (Rva : DWORD)
    (ErrorMessageFmtBuffer InternalFmtBuffer : string) : M (HRESULT * ResolveOut) :=
  let Cleanup (Hr : HRESULT) (Session : Ptr IDiaSession)
              (DiaDataSource : Ptr IDiaDataSource)
              (ErrorMessageFmtBuffer : string) (out : ResolveOut) : M (HRESULT * ResolveOut) :=
    Release_if_not_NULL Session ;;
    Release_if_not_NULL DiaDataSource ;;
    emit EvCoUninitialize ;;
    ret (Hr, set_ErrorMessageOut out (SysAllocString ErrorMessageFmtBuffer)) in
  let out := ResolveOut_init in
  (* Initialize COM *)
  let Hr := CoInitialize com in
  emit EvCoInitialize ;;
  if FAILED Hr then
    Cleanup Hr None None (StringCchPrintfW "Failed to initialize COM " Hr) out
  else
  (* Create an instance of the DIA data source *)
  let '(Hr, pDataSource) := CoCreateInstance com 0 in
  DiaDataSource <- out_ptr (HDataSource 0) pDataSource ;;
  if FAILED Hr then
    Cleanup Hr None DiaDataSource
      (StringCchPrintfW "Failed to create DIA data source instance. " Hr) out
  else
  (* Load the PDB file *)
  ds <- deref DiaDataSource ;;
  let Hr := loadDataFromPdb ds PdbFilePath in
  if FAILED Hr then
    Cleanup Hr None DiaDataSource (StringCchPrintfW "Failed to load PDB file " Hr) out
  else
  (* Create a Session to access the symbols *)
  let '(Hr, pSession) := openSession ds in
  Session <- out_ptr (HSession 0) pSession ;;
  if FAILED Hr then
    Cleanup Hr Session DiaDataSource
      (StringCchPrintfW "Failed to open DIA Session " Hr) out
  else
  (* Resolve the symbols for the stack frame *)
  sess <- deref Session ;;
  '(Hr, out) <- ResolveStackFrameSymbolsInternal sess Rva out InternalFmtBuffer ;;
  (* if (FAILED(Hr)) goto Cleanup;  -- the label follows at once *)
  Cleanup Hr Session DiaDataSource ErrorMessageFmtBuffer out.

(** ** MatchModuleWithPdbFile *)

Record MatchOut := {
  IsMatched : bool;
  MatchErrorMessageOut : BSTR
}.

Definition MatchModuleWithPdbFile (com : COM) (ExePath PdbPath : string)
    (ErrorMessageFmtBuffer : string) : M (HRESULT * MatchOut) :=
  let Cleanup (Hr : HRESULT) (DiaSymbol : Ptr IDiaSymbol) (DiaSession : Ptr IDiaSession)
              (DiaDataSource : Ptr IDiaDataSource)
              (ErrorMessageFmtBuffer : string) (IsMatched : bool) : M (HRESULT * MatchOut) :=
    Release_if_not_NULL DiaSymbol ;;
    Release_if_not_NULL DiaSession ;;
    Release_if_not_NULL DiaDataSource ;;
    emit EvCoUninitialize ;;
    ret (Hr, {| IsMatched := IsMatched;
                MatchErrorMessageOut := SysAllocString ErrorMessageFmtBuffer |}) in
  (* *IsMatched = false; *)
  let IsMatched := false in
  (* Initialize COM *)
  let Hr := CoInitialize com in
  emit EvCoInitialize ;;
  if FAILED Hr then
    Cleanup Hr None None None (StringCchPrintfW "Failed to initialize COM " Hr) IsMatched
  else
  (* Create an instance of the DIA data source to process the exe *)
  let '(Hr, pDataSource) := CoCreateInstance com 0 in
  DiaDataSource <- out_ptr (HDataSource 0) pDataSource ;;
  if FAILED Hr then
    Cleanup Hr None None DiaDataSource
      (StringCchPrintfW "Failed to create DIA data source instance. " Hr) IsMatched
  else
  (* Load the exe file *)
  ds <- deref DiaDataSource ;;
  let Hr := loadDataForExe ds ExePath in
  if FAILED Hr then
    Cleanup Hr None None DiaDataSource
      (StringCchPrintfW "Failed to load exe file " Hr) IsMatched
  else
  (* Open a session for the exe *)
  let '(Hr, pSession) := openSession ds in
  DiaSession <- out_ptr (HSession 0) pSession ;;
  if FAILED Hr then
    Cleanup Hr None DiaSession DiaDataSource
      (StringCchPrintfW "Failed to open DIA Session for exe " Hr) IsMatched
  else
  (* Retrieve the global symbol *)
  sess <- deref DiaSession ;;
  let '(Hr, pSymbol) := get_globalScope sess in
  DiaSymbol <- out_ptr (HGlobalScope 0) pSymbol ;;
  if FAILED Hr then
    Cleanup Hr DiaSymbol DiaSession DiaDataSource
      (StringCchPrintfW "Failed to get global scope of the exe " Hr) IsMatched
  else
  (* Get the GUID, signature and age from the exe *)
  sym <- deref DiaSymbol ;;
  let '(Hr, ExeGuid) := get_guid sym in
  if FAILED Hr then
    Cleanup Hr DiaSymbol DiaSession DiaDataSource
      (StringCchPrintfW "Failed to get GUID of the exe " Hr) IsMatched
  else
  let '(Hr, ExeSignature) := get_signature sym in
  if FAILED Hr then
    Cleanup Hr DiaSymbol DiaSession DiaDataSource
      (StringCchPrintfW "Failed to get signature of the exe " Hr) IsMatched
  else
  let '(Hr, ExeAge) := get_age sym in
  if FAILED Hr then
    Cleanup Hr DiaSymbol DiaSession DiaDataSource
      (StringCchPrintfW "Failed to get age of the exe " Hr) IsMatched
  else
  Release DiaSymbol ;;
  Release DiaSession ;;
  Release DiaDataSource ;;
  (* Create an instance of the DIA data source to process the PDB *)
  let '(Hr, pDataSource) := CoCreateInstance com 1 in
  DiaDataSource <- out_ptr (HDataSource 1) pDataSource ;;
  if FAILED Hr then
    Cleanup Hr None None DiaDataSource
      (StringCchPrintfW "Failed to create DIA data source instance. " Hr) IsMatched
  else
  (* Load the PDB file *)
  ds <- deref DiaDataSource ;;
  let Hr := loadDataFromPdb ds PdbPath in
  if FAILED Hr then
    Cleanup Hr None None DiaDataSource
      (StringCchPrintfW "Failed to load PDB file " Hr) IsMatched
  else
  (* Open a session for the PDB *)
  let '(Hr, pSession) := openSession ds in
  DiaSession <- out_ptr (HSession 1) pSession ;;
  if FAILED Hr then
    Cleanup Hr None DiaSession DiaDataSource
      (StringCchPrintfW "Failed to open DIA Session for PDB " Hr) IsMatched
  else
  (* Retrieve the global symbol *)
  sess <- deref DiaSession ;;
  let '(Hr, pSymbol) := get_globalScope sess in
  DiaSymbol <- out_ptr (HGlobalScope 1) pSymbol ;;
  if FAILED Hr then
    Cleanup Hr DiaSymbol DiaSession DiaDataSource
      (StringCchPrintfW "Failed to get global scope of the PDB " Hr) IsMatched
  else
  (* Get the GUID, signature and age from the PDB *)
  sym <- deref DiaSymbol ;;
  let '(Hr, PdbGuid) := get_guid sym in
  if FAILED Hr then
    Cleanup Hr DiaSymbol DiaSession DiaDataSource
      (StringCchPrintfW "Failed to get GUID of the PDB " Hr) IsMatched
  else
  let '(Hr, PdbSignature) := get_signature sym in
  if FAILED Hr then
    Cleanup Hr DiaSymbol DiaSession DiaDataSource
      (StringCchPrintfW "Failed to get signature of the PDB " Hr) IsMatched
  else
  let '(Hr, PdbAge) := get_age sym in
  if FAILED Hr then
    Cleanup Hr DiaSymbol DiaSession DiaDataSource
      (StringCchPrintfW "Failed to get age of the PDB " Hr) IsMatched
  else
  (* Compare the GUIDs, signatures and ages *)
  let IsMatched := (memcmp PdbGuid ExeGuid sizeof_GUID =? 0)
                   && (PdbSignature =? ExeSignature)
                   && (PdbAge =? ExeAge) in
  Cleanup S_OK DiaSymbol DiaSession DiaDataSource ErrorMessageFmtBuffer IsMatched.

(** ** A reference provider over an explicit debug store *)

(** Modelled from the spec: the debug-information provider (the DIA SDK) is
    an external collaborator, absent from the sources.  A debug store is the
    data the specification speaks of: function symbols with their address
    ranges and names, line records with the range they cover, and the identity
    triple of the global scope. *)
Record FunctionSymbol := {
  functionStartAddress : DWORD;
  functionLength : DWORD;
  undecoratedName : string;
  rawName : string
}.

Record LineRecord := {
  lineStartAddress : DWORD;
  lineLength : DWORD;
  sourceFileName : string;
  lineNumber : DWORD
}.

Record IdentityTriple := {
  guid : GUID;
  signature : DWORD;
  age : DWORD
}.

Record DebugStore := {
  functions : list FunctionSymbol;
  lineRecords : list LineRecord;
  identity : IdentityTriple
}.

Definition function_contains (rva : DWORD) (f : FunctionSymbol) : bool :=
  (functionStartAddress f <=? rva) && (rva <? functionStartAddress f + functionLength f).

Definition line_covers (rva : DWORD) (r : LineRecord) : bool :=
  (lineStartAddress r <=? rva) && (rva <? lineStartAddress r + lineLength r).

(** Modelled from the spec: a name property answers [S_OK] with the string,
    or [S_FALSE] with no string when the symbol has no such name. *)
Definition name_answer (s : string) : HRESULT * BSTR :=
  match s with
  | EmptyString => (S_FALSE, None)
  | _ => (S_OK, Some s)
  end.

Definition symbol_of_function (f : FunctionSymbol) : IDiaSymbol :=
  {| get_undecoratedName := name_answer (undecoratedName f);
     get_name := name_answer (rawName f);
     get_guid := (S_FALSE, []);
     get_signature := (S_FALSE, 0);
     get_age := (S_FALSE, 0) |}.

Definition globalScope_of_identity (t : IdentityTriple) : IDiaSymbol :=
  {| get_undecoratedName := (S_FALSE, None);
     get_name := (S_FALSE, None);
     get_guid := (S_OK, guid t);
     get_signature := (S_OK, signature t);
     get_age := (S_OK, age t) |}.

Definition lineNumber_of_record (r : LineRecord) : IDiaLineNumber :=
  {| get_lineNumber := (S_OK, lineNumber r);
     get_sourceFile :=
       (S_OK, Some {| get_fileName := (S_OK, Some (sourceFileName r)) |}) |}.

(** Modelled from the spec: an enumerator over a sequence of line records
    (the [Next] of a COM enumerator): it fetches up to [celt] elements, tells
    how many it fetched, and answers [S_OK] when that is [celt] and [S_FALSE]
    when the sequence ran out.  The caller's array has one slot: the pointer
    handed out is the first element fetched. *)
Definition enum_of_list (l : list IDiaLineNumber) : IDiaEnumLineNumbers :=
  {| Next := fun celt =>
       let fetched := firstn (Z.to_nat celt) l in
       (if Z.of_nat (List.length fetched) =? celt then S_OK else S_FALSE,
        hd_error fetched,
        Z.of_nat (List.length fetched)) |}.

(** Modelled from the spec: [FindSymbolByAddress] answers the function whose
    range contains the address and the displacement from its start, written
    to the 32-bit [LONG] the caller passes; [FindLinesByAddress] answers the
    sequence of the line records whose range contains the address. *)
Definition session_of_store (st : DebugStore) : IDiaSession :=
  {| findSymbolByRVAEx := fun rva _ =>
       match find (function_contains rva) (functions st) with
       | Some f => (S_OK, Some (symbol_of_function f),
                    DWORD_to_LONG (rva - functionStartAddress f))
       | None => (S_FALSE, None, 0)
       end;
     findLinesByRVA := fun rva _ =>
       (S_OK, Some (enum_of_list
                      (map lineNumber_of_record
                           (filter (line_covers rva) (lineRecords st)))));
     get_globalScope := (S_OK, Some (globalScope_of_identity (identity st))) |}.

Definition dataSource_of_store (st : DebugStore) : IDiaDataSource :=
  {| loadDataFromPdb := fun _ => S_OK;
     loadDataForExe := fun _ => S_OK;
     openSession := (S_OK, Some (session_of_store st)) |}.

(** A COM runtime in which every activation succeeds: the first data source
    reads [module], the second reads [store] (only
    [MatchModuleWithPdbFile] asks for two). *)
Definition com_of_stores (module store : DebugStore) : COM :=
  {| CoInitialize := S_OK;
     CoCreateInstance := fun n =>
       match n with
       | O => (S_OK, Some (dataSource_of_store module))
       | _ => (S_OK, Some (dataSource_of_store store))
       end |}.

Definition com_of_store (store : DebugStore) : COM := com_of_stores store store.

(** [com] lets the call reach an open session [sess] on [path]: COM
    initialises, the data source is created, the file loads, the session
    opens, none with a failure status. *)
Definition opens_pdb_session (com : COM) (path : string) (sess : IDiaSession) : Prop :=
  exists h0 ds h1,
    FAILED (CoInitialize com) = false /\
    CoCreateInstance com 0 = (h0, Some ds) /\ FAILED h0 = false /\
    FAILED (loadDataFromPdb ds path) = false /\
    openSession ds = (h1, Some sess) /\ FAILED h1 = false.

(** ** Sample data *)

Definition sample_guid : GUID :=
  [x01; x23; x45; x67; x89; xab; xcd; xef; x10; x32; x54; x76; x98; xba; xdc; xfe].

Definition sample_identity : IdentityTriple :=
  {| guid := sample_guid; signature := 1700000000; age := 3 |}.

Definition sample_store : DebugStore :=
  {| functions :=
       [ {| functionStartAddress := 4096; functionLength := 64;
            undecoratedName := "func1"; rawName := "?func1@@YAXXZ" |};
         {| functionStartAddress := 4160; functionLength := 32;
            undecoratedName := ""; rawName := "" |} ];
     lineRecords :=
       [ {| lineStartAddress := 4096; lineLength := 16;
            sourceFileName := "x64.c"; lineNumber := 10 |};
         {| lineStartAddress := 4112; lineLength := 16;
            sourceFileName := "x64.c"; lineNumber := 11 |};
         {| lineStartAddress := 4112; lineLength := 8;
            sourceFileName := "inline.h"; lineNumber := 7 |};
         {| lineStartAddress := 4160; lineLength := 32;
            sourceFileName := "x64.c"; lineNumber := 20 |} ];
     identity := sample_identity |}.

(** A debug store built from the same sources as [sample_store] one link
    later: the age moved on by one. *)
Definition stale_store : DebugStore :=
  {| functions := functions sample_store;
     lineRecords := lineRecords sample_store;
     identity := {| guid := sample_guid; signature := 1700000000; age := 4 |} |}.

(** A session whose every query answers the status [hr] and hands out
    nothing. *)
Definition failing_session (hr : HRESULT) : IDiaSession :=
  {| findSymbolByRVAEx := fun _ _ => (hr, None, 0);
     findLinesByRVA := fun _ _ => (hr, None);
     get_globalScope := (hr, None) |}.

(** A COM runtime in which everything succeeds and every data source opens
    the session [sess]. *)
Definition com_of_session (sess : IDiaSession) : COM :=
  {| CoInitialize := S_OK;
     CoCreateInstance := fun _ =>
       (S_OK, Some {| loadDataFromPdb := fun _ => S_OK;
                      loadDataForExe := fun _ => S_OK;
                      openSession := (S_OK, Some sess) |}) |}.

(** A COM runtime whose data sources cannot load any file. *)
Definition com_load_fails (hr : HRESULT) : COM :=
  {| CoInitialize := S_OK;
     CoCreateInstance := fun _ =>
       (S_OK, Some {| loadDataFromPdb := fun _ => hr;
                      loadDataForExe := fun _ => hr;
                      openSession := (E_FAIL, None) |}) |}.

(** ** The display name the specification asks for *)

(** The text of a [BSTR]: a NULL [BSTR] reads as the empty string. *)
Definition BSTR_text (b : BSTR) : string :=
  match b with
  | None => ""
  | Some s => s
  end.

(** The name a name query contributes: its text when the query answers
    [S_OK], nothing otherwise. *)
Definition answered_name (a : HRESULT * BSTR) : string :=
  if fst a =? S_OK then BSTR_text (snd a) else "".

(** The fallback order in the specification's words: the undecorated name if
    non-empty, else the raw name if non-empty, else the literal [(None)]. *)
Definition display_name_spec (undecorated raw : string) : string :=
  match undecorated with
  | String _ _ => undecorated
  | EmptyString =>
      match raw with
      | String _ _ => raw
      | EmptyString => "(None)"
      end
  end.

(** Replacing what the two name queries of a symbol answer. *)
Definition with_names (sym : IDiaSymbol) (u n : HRESULT * BSTR) : IDiaSymbol :=
  {| get_undecoratedName := u;
     get_name := n;
     get_guid := get_guid sym;
     get_signature := get_signature sym;
     get_age := get_age sym |}.

Definition session_with_names (sess : IDiaSession) (u n : HRESULT * BSTR) : IDiaSession :=
  {| findSymbolByRVAEx := fun rva tag =>
       let '(h, p, d) := findSymbolByRVAEx sess rva tag in
       (h, option_map (fun sym => with_names sym u n) p, d);
     findLinesByRVA := findLinesByRVA sess;
     get_globalScope := get_globalScope sess |}.

(** Two runs that agree on everything but the function name they may have
    stored: the same status, trace, file name, line number, displacement
    and diagnostic, and a function name stored by both or by neither. *)
Definition same_but_function_name (a b : Flow (HRESULT * ResolveOut)) : Prop :=
  match a, b with
  | Val (hr, out) tr, Val (hr', out') tr' =>
      hr = hr' /\ tr = tr' /\
      FileNameOut out = FileNameOut out' /\
      LineNumberOut out = LineNumberOut out' /\
      DisplacementOut out = DisplacementOut out' /\
      ErrorMessageOut out = ErrorMessageOut out' /\
      (FunctionNameOut out = None <-> FunctionNameOut out' = None)
  | Fault tr, Fault tr' => tr = tr'
  | _, _ => False
  end.

(** Replacing what [findLinesByRVA] answers. *)
Definition session_with_lines (sess : IDiaSession)
    (a : HRESULT * option IDiaEnumLineNumbers) : IDiaSession :=
  {| findSymbolByRVAEx := findSymbolByRVAEx sess;
     findLinesByRVA := fun _ _ => a;
     get_globalScope := get_globalScope sess |}.

(** The same runtime, every session it opens transformed by [f]. *)
Definition dataSource_map_session (f : IDiaSession -> IDiaSession)
    (ds : IDiaDataSource) : IDiaDataSource :=
  {| loadDataFromPdb := loadDataFromPdb ds;
     loadDataForExe := loadDataForExe ds;
     openSession := let '(h, p) := openSession ds in (h, option_map f p) |}.

Definition com_map_session (f : IDiaSession -> IDiaSession) (com : COM) : COM :=
  {| CoInitialize := CoInitialize com;
     CoCreateInstance := fun n =>
       let '(h, p) := CoCreateInstance com n in
       (h, option_map (dataSource_map_session f) p) |}.

(** ** Reading an identity triple *)

(** Every query that reads the identity triple [t] from the data source [ds]
    answers without a failure status: the session opens, its global scope is
    found, and the three fields are read. *)
Definition reads_identity (ds : IDiaDataSource) (t : IdentityTriple) : Prop :=
  exists hS sess hG sym hg hs ha,
    openSession ds = (hS, Some sess) /\ FAILED hS = false /\
    get_globalScope sess = (hG, Some sym) /\ FAILED hG = false /\
    get_guid sym = (hg, guid t) /\ FAILED hg = false /\
    get_signature sym = (hs, signature t) /\ FAILED hs = false /\
    get_age sym = (ha, age t) /\ FAILED ha = false.

(** Every step of [MatchModuleWithPdbFile] succeeds; the module's identity
    triple is [tExe], the debug store's is [tPdb]. *)
Definition identity_queries_succeed (com : COM) (ExePath PdbPath : string)
    (tExe tPdb : IdentityTriple) : Prop :=
  FAILED (CoInitialize com) = false /\
  (exists h ds, CoCreateInstance com 0 = (h, Some ds) /\ FAILED h = false /\
                FAILED (loadDataForExe ds ExePath) = false /\
                reads_identity ds tExe) /\
  (exists h ds, CoCreateInstance com 1 = (h, Some ds) /\ FAILED h = false /\
                FAILED (loadDataFromPdb ds PdbPath) = false /\
                reads_identity ds tPdb).

(** ** Reading a trace *)

(** In [MatchModuleWithPdbFile] the first data source, its session and its
    global scope are the module handle; those of the second data source are
    the debug-store handle. *)
Definition module_handle (h : Handle) : bool :=
  match h with
  | HDataSource O | HSession O | HGlobalScope O => true
  | _ => false
  end.

Definition store_handle (h : Handle) : bool :=
  match h with
  | HDataSource (S _) | HSession (S _) | HGlobalScope (S _) => true
  | _ => false
  end.

Definition handle_delta (p : Handle -> bool) (e : Event) : Z :=
  match e with
  | EvAcquire h => if p h then 1 else 0
  | EvRelease h => if p h then -1 else 0
  | _ => 0
  end.

(** How many of the objects selected by [p] are held after the trace. *)
Fixpoint open_count (p : Handle -> bool) (tr : list Event) : Z :=
  match tr with
  | [] => 0
  | e :: tr' => handle_delta p e + open_count p tr'
  end.

(** How many [CoInitialize] calls are not yet matched by [CoUninitialize]. *)
Fixpoint com_depth (tr : list Event) : Z :=
  match tr with
  | [] => 0
  | EvCoInitialize :: tr' => 1 + com_depth tr'
  | EvCoUninitialize :: tr' => -1 + com_depth tr'
  | _ :: tr' => com_depth tr'
  end.

(** At no point of the trace are a module object and a debug-store object
    held together. *)
Definition never_both_open (tr : list Event) : Prop :=
  forall pre post, tr = pre ++ post ->
    ~ (0 < open_count module_handle pre /\ 0 < open_count store_handle pre).

(** Whenever a debug-store object is acquired, no module object is held. *)
Definition module_released_before_store (tr : list Event) : Prop :=
  forall pre h post, tr = pre ++ EvAcquire h :: post ->
    store_handle h = true -> open_count module_handle pre = 0.

(** Whenever a debug-store object is acquired, the COM initialisation made
    for the module has been undone. *)
Definition com_released_before_store (tr : list Event) : Prop :=
  forall pre h post, tr = pre ++ EvAcquire h :: post ->
    store_handle h = true -> com_depth pre = 0.

(** COM is initialised by the first event and stays initialised, once, until
    the last event. *)
Definition com_held_throughout (tr : list Event) : Prop :=
  forall pre e post, tr = pre ++ e :: post -> pre <> [] -> com_depth pre = 1.

(** A check of every split of a trace into what happened and what follows. *)
Fixpoint all_splits (P : list Event -> list Event -> bool)
    (pre post : list Event) : bool :=
  P pre post &&
  match post with
  | [] => true
  | e :: post' => all_splits P (pre ++ [e]) post'
  end.

Definition never_both_open_at (pre post : list Event) : bool :=
  negb ((0 <? open_count module_handle pre) && (0 <? open_count store_handle pre)).

Definition module_released_at (pre post : list Event) : bool :=
  match post with
  | EvAcquire h :: _ => if store_handle h then open_count module_handle pre =? 0 else true
  | _ => true
  end.

Definition com_released_at (pre post : list Event) : bool :=
  match post with
  | EvAcquire h :: _ => if store_handle h then com_depth pre =? 0 else true
  | _ => true
  end.

Definition com_held_at (pre post : list Event) : bool :=
  match pre, post with
  | _ :: _, _ :: _ => com_depth pre =? 1
  | _, _ => true
  end.

(** ** Counting what is held *)

Definition Handle_eqb (a b : Handle) : bool :=
  match a, b with
  | HDataSource n, HDataSource m => Nat.eqb n m
  | HSession n, HSession m => Nat.eqb n m
  | HGlobalScope n, HGlobalScope m => Nat.eqb n m
  | HSymbol, HSymbol => true
  | HEnumLineNumbers, HEnumLineNumbers => true
  | HLineNumber, HLineNumber => true
  | HSourceFile, HSourceFile => true
  | _, _ => false
  end.

(** How many references to the object [h] are held after the trace. *)
Definition held (h : Handle) (tr : list Event) : Z :=
  open_count (Handle_eqb h) tr.

(** How many times the object [h] was handed out in the trace. *)
Fixpoint acquired (h : Handle) (tr : list Event) : Z :=
  match tr with
  | [] => 0
  | EvAcquire h' :: tr' => (if Handle_eqb h h' then 1 else 0) + acquired h tr'
  | _ :: tr' => acquired h tr'
  end.

Definition held_in_bounds (h : Handle) (pre post : list Event) : bool :=
  (0 <=? held h pre) && (held h pre <=? 1).

(** Does the trace acquire an object of the debug store? *)
Definition acquires_store (tr : list Event) : bool :=
  existsb (fun e => match e with
                    | EvAcquire h => store_handle h
                    | _ => false
                    end) tr.

(** ** The steps of the entry points, in order

    Each step is the text the code formats when the step fails and the
    status the provider answers for it.  A step is listed when the objects
    it is called on were handed out. *)

Definition steps_of_source (who : string) (load : IDiaDataSource -> HRESULT)
    (created : HRESULT * option IDiaDataSource)
    (then_ : list (string * HRESULT)) : list (string * HRESULT) :=
  ("Failed to create DIA data source instance. ", fst created) ::
  match snd created with
  | None => []
  | Some ds =>
      (("Failed to load " ++ who ++ " file ")%string, load ds) ::
      (("Failed to open DIA Session for " ++ who ++ " ")%string, fst (openSession ds)) ::
      match snd (openSession ds) with
      | None => []
      | Some sess =>
          (("Failed to get global scope of the " ++ who ++ " ")%string,
           fst (get_globalScope sess)) ::
          match snd (get_globalScope sess) with
          | None => []
          | Some sym =>
              (("Failed to get GUID of the " ++ who ++ " ")%string, fst (get_guid sym)) ::
              (("Failed to get signature of the " ++ who ++ " ")%string,
               fst (get_signature sym)) ::
              (("Failed to get age of the " ++ who ++ " ")%string, fst (get_age sym)) ::
              then_
          end
      end
  end.

Definition match_steps (com : COM) (ExePath PdbPath : string) : list (string * HRESULT) :=
  ("Failed to initialize COM ", CoInitialize com) ::
  steps_of_source "exe" (fun ds => loadDataForExe ds ExePath) (CoCreateInstance com 0)
    (steps_of_source "PDB" (fun ds => loadDataFromPdb ds PdbPath)
       (CoCreateInstance com 1) []).

(** The steps of [ResolveStackFrameSymbols] before it calls
    [ResolveStackFrameSymbolsInternal]. *)
Definition resolve_steps (com : COM) (PdbFilePath : string) : list (string * HRESULT) :=
  ("Failed to initialize COM ", CoInitialize com) ::
  ("Failed to create DIA data source instance. ", fst (CoCreateInstance com 0)) ::
  match snd (CoCreateInstance com 0) with
  | None => []
  | Some ds =>
      [ ("Failed to load PDB file ", loadDataFromPdb ds PdbFilePath);
        ("Failed to open DIA Session ", fst (openSession ds)) ]
  end.

Definition first_failure (steps : list (string * HRESULT)) : option (string * HRESULT) :=
  find (fun s => FAILED (snd s)) steps.

(** ** A provider that keeps the COM contract

    A call that does not answer a failure status hands out the object it
    was asked for. *)

Definition hands_out {T} (a : HRESULT * option T) (P : T -> Prop) : Prop :=
  FAILED (fst a) = false -> exists o, snd a = Some o /\ P o.

Definition contract_line (line : IDiaLineNumber) : Prop :=
  hands_out (get_sourceFile line) (fun _ => True).

Definition contract_enum (enum : IDiaEnumLineNumbers) : Prop :=
  FAILED (fst (fst (Next enum 1))) = false ->
  snd (Next enum 1) = 1 ->
  exists line, snd (fst (Next enum 1)) = Some line /\ contract_line line.

Definition contract_session (rva : DWORD) (sess : IDiaSession) : Prop :=
  hands_out (fst (findSymbolByRVAEx sess rva SymTagFunction)) (fun _ => True) /\
  hands_out (findLinesByRVA sess rva 1) contract_enum /\
  hands_out (get_globalScope sess) (fun _ => True).

Definition contract_source (rva : DWORD) (ds : IDiaDataSource) : Prop :=
  hands_out (openSession ds) (contract_session rva).

Definition contract_com (rva : DWORD) (com : COM) : Prop :=
  forall n, hands_out (CoCreateInstance com n) (contract_source rva).

(** ** Replacing the queries an entry point does not make *)

Definition session_with_globalScope (sess : IDiaSession)
    (g : HRESULT * option IDiaSymbol) : IDiaSession :=
  {| findSymbolByRVAEx := findSymbolByRVAEx sess;
     findLinesByRVA := findLinesByRVA sess;
     get_globalScope := g |}.

Definition session_with_address_queries (sess : IDiaSession)
    (fS : DWORD -> SymTagEnum -> HRESULT * option IDiaSymbol * LONG)
    (fL : DWORD -> DWORD -> HRESULT * option IDiaEnumLineNumbers) : IDiaSession :=
  {| findSymbolByRVAEx := fS;
     findLinesByRVA := fL;
     get_globalScope := get_globalScope sess |}.

(** ** Reading the status back from a diagnostic *)

Definition hex_digit_value (c : ascii) : Z :=
  match c with
  | "0" => 0 | "1" => 1 | "2" => 2 | "3" => 3 | "4" => 4 | "5" => 5
  | "6" => 6 | "7" => 7 | "8" => 8 | "9" => 9 | "A" => 10 | "B" => 11
  | "C" => 12 | "D" => 13 | "E" => 14 | "F" => 15 | _ => 0
  end%char.

(** The number a string of hexadecimal digits denotes, most significant
    digit first, continuing from [acc]. *)
Fixpoint hex_value_from (acc : Z) (s : string) : Z :=
  match s with
  | EmptyString => acc
  | String c s' => hex_value_from (16 * acc + hex_digit_value c) s'
  end.

Definition hex_value (s : string) : Z := hex_value_from 0 s.

(** * Properties *)

(** ** Basic facts *)

Lemma SysStringLen_zero_text (b : BSTR) :
  SysStringLen b = 0 <-> BSTR_text b = "".
Proof.
  destruct b as [s|]; simpl; [|tauto].
  destruct s; simpl; split; intro H; try reflexivity; try discriminate; lia.
Qed.

Lemma SysStringLen_eqb_zero (b : BSTR) :
  (SysStringLen b =? 0) = match BSTR_text b with EmptyString => true | _ => false end.
Proof.
  destruct b as [s|]; simpl; [|reflexivity].
  destruct s; reflexivity.
Qed.

Lemma display_name_spec_nonempty (u r : string) : display_name_spec u r <> "".
Proof. destruct u, r; simpl; discriminate. Qed.

Lemma GetFunctionName_spec (sym : IDiaSymbol) :
  GetFunctionName sym =
  Some (display_name_spec (answered_name (get_undecoratedName sym))
                          (answered_name (get_name sym))).
Proof.
  unfold GetFunctionName, answered_name.
  destruct (get_undecoratedName sym) as [hu bu], (get_name sym) as [hn bn]; simpl.
  rewrite !SysStringLen_eqb_zero.
  destruct (hu =? S_OK), (hn =? S_OK); simpl;
    destruct bu as [[|c s]|], bn as [[|c' s']|]; reflexivity.
Qed.

Lemma GetFunctionName_nonempty (sym : IDiaSymbol) :
  SysStringLen (GetFunctionName sym) <> 0.
Proof.
  rewrite GetFunctionName_spec, SysStringLen_zero_text. simpl.
  apply display_name_spec_nonempty.
Qed.

(** A name query that does not answer [S_OK] contributes what an empty name
    contributes. *)
Lemma answered_name_not_S_OK (h : HRESULT) (b e : BSTR) :
  h <> S_OK -> SysStringLen e = 0 ->
  answered_name (h, b) = answered_name (S_OK, e).
Proof.
  intros Hh He. unfold answered_name; simpl.
  apply Z.eqb_neq in Hh. rewrite Hh.
  apply SysStringLen_zero_text in He. now rewrite He.
Qed.

Lemma GetFunctionName_with_names (sym : IDiaSymbol) (u n : HRESULT * BSTR) :
  GetFunctionName (with_names sym u n) =
  Some (display_name_spec (answered_name u) (answered_name n)).
Proof. now rewrite GetFunctionName_spec. Qed.

(** The internal function looks at the function symbol only to derive the
    display name: two sessions that agree but for the name answers, and
    whose name answers yield the same display name, behave alike. *)
Lemma Internal_names_congruence (sess : IDiaSession) (u n u' n' : HRESULT * BSTR)
    (rva : DWORD) (out : ResolveOut) (buf : string) (tr : list Event) :
  display_name_spec (answered_name u) (answered_name n) =
  display_name_spec (answered_name u') (answered_name n') ->
  ResolveStackFrameSymbolsInternal (session_with_names sess u n) rva out buf tr =
  ResolveStackFrameSymbolsInternal (session_with_names sess u' n') rva out buf tr.
Proof.
  intros Heq.
  unfold ResolveStackFrameSymbolsInternal; simpl.
  destruct (findSymbolByRVAEx sess rva SymTagFunction) as [[h p] d].
  destruct p as [sym|]; simpl; [|reflexivity].
  unfold bind; simpl.
  destruct (FAILED h); [reflexivity|].
  now rewrite !GetFunctionName_with_names, Heq.
Qed.

(** ** C7: the fallback order of the function display name *)


Arguments StringCchPrintfW : simpl never.

Lemma filter_singleton_find {A} (p : A -> bool) (l : list A) (a : A) :
  filter p l = [a] -> find p l = Some a.
Proof.
  induction l as [|x l IH]; simpl; [discriminate|].
  destruct (p x); [congruence | exact IH].
Qed.

Lemma DWORD_to_LONG_small (d : DWORD) :
  0 <= d < 2147483648 -> DWORD_to_LONG d = d.
Proof.
  intros H. unfold DWORD_to_LONG.
  rewrite Z.mod_small; lia.
Qed.

Lemma DWORD_to_LONG_range (d : Z) : in_LONG (DWORD_to_LONG d).
Proof.
  unfold in_LONG, DWORD_to_LONG.
  pose proof (Z.mod_pos_bound (d + 2147483648) 4294967296). lia.
Qed.

(** The path on which every step succeeds, for an arbitrary provider. *)
Lemma ResolveStackFrameSymbols_resolves
    (com : COM) (path : string) (rva : DWORD) (buf ibuf : string)
    (sess : IDiaSession) (hS : HRESULT) (sym : IDiaSymbol) (d : LONG)
    (hL : HRESULT) (enum : IDiaEnumLineNumbers)
    (hE : HRESULT) (line : IDiaLineNumber)
    (hN : HRESULT) (ln : DWORD) (hF : HRESULT) (src : IDiaSourceFile)
    (hFN : HRESULT) (fn : BSTR) :
  opens_pdb_session com path sess ->
  findSymbolByRVAEx sess rva SymTagFunction = (hS, Some sym, d) -> FAILED hS = false ->
  findLinesByRVA sess rva 1 = (hL, Some enum) -> FAILED hL = false ->
  Next enum 1 = (hE, Some line, 1) -> FAILED hE = false ->
  get_lineNumber line = (hN, ln) -> FAILED hN = false ->
  get_sourceFile line = (hF, Some src) -> FAILED hF = false ->
  get_fileName src = (hFN, fn) -> FAILED hFN = false ->
  exists tr,
    ResolveStackFrameSymbols com path rva buf ibuf [] =
    Val (S_OK, {| FileNameOut := fn;
                  LineNumberOut := DWORD_to_LONG ln;
                  FunctionNameOut := GetFunctionName sym;
                  DisplacementOut := d;
                  ErrorMessageOut := SysAllocString buf |}) tr.
Proof.
  intros (h0 & ds & h1 & Hinit & Hcreate & Hh0 & Hload & Hopen & Hh1).
  intros HS HhS HL HhL HE HhE HN HhN HF HhF HFN HhFN.
  unfold ResolveStackFrameSymbols, ResolveStackFrameSymbolsInternal, bind.
  simpl. rewrite Hinit, Hcreate. simpl. rewrite Hh0, Hload, Hopen. simpl.
  rewrite Hh1, HS. simpl. rewrite HhS, HL. simpl. rewrite HhL, HE. simpl.
  rewrite HhE, HN. simpl. rewrite HhN, HF. simpl. rewrite HhF, HFN, HhFN. simpl.
  eexists. reflexivity.
Qed.

Lemma answered_name_name_answer (s : string) : answered_name (name_answer s) = s.
Proof. destruct s; reflexivity. Qed.

Lemma GetFunctionName_symbol_of_function (f : FunctionSymbol) :
  GetFunctionName (symbol_of_function f) =
  Some (display_name_spec (undecoratedName f) (rawName f)).
Proof.
  rewrite GetFunctionName_spec. simpl. now rewrite !answered_name_name_answer.
Qed.

(** ** C1: resolution of an address with one function and one line record *)

(** C1.  For every debug store that can be opened and every RVA that lies in
    the range of exactly one function and is covered by exactly one line
    record, [ResolveStackFrameSymbols] returns [S_OK] with the displacement
    [rva - functionStart], a non-empty function name (the display name of
    that function), and the source file name and line number of that line
    record.  Displacement and line number come back through 32-bit [LONG]
    out-parameters: each is the value reduced to a [LONG], which is the value
    itself whenever it is below 2^31 (for the displacement: whenever the
    function is at most 2^31 bytes long). *)
Theorem resolve_unique_function_and_line
    (st : DebugStore) (com : COM) (path : string) (rva : DWORD)
    (buf ibuf : string) (f : FunctionSymbol) (r : LineRecord) :
  opens_pdb_session com path (session_of_store st) ->
  filter (function_contains rva) (functions st) = [f] ->
  filter (line_covers rva) (lineRecords st) = [r] ->
  exists out tr,
    ResolveStackFrameSymbols com path rva buf ibuf [] = Val (S_OK, out) tr /\
    DisplacementOut out = DWORD_to_LONG (rva - functionStartAddress f) /\
    (rva - functionStartAddress f < 2147483648 ->
     DisplacementOut out = rva - functionStartAddress f) /\
    (functionLength f <= 2147483648 ->
     DisplacementOut out = rva - functionStartAddress f) /\
    SysStringLen (FunctionNameOut out) <> 0 /\
    FunctionNameOut out = Some (display_name_spec (undecoratedName f) (rawName f)) /\
    FileNameOut out = Some (sourceFileName r) /\
    LineNumberOut out = DWORD_to_LONG (lineNumber r) /\
    (0 <= lineNumber r < 2147483648 -> LineNumberOut out = lineNumber r) /\
    in_LONG (DisplacementOut out) /\ in_LONG (LineNumberOut out).
Proof.
  intros Hopen Hf Hr.
  assert (Hin : function_contains rva f = true).
  { assert (Hm : In f (filter (function_contains rva) (functions st)))
      by (rewrite Hf; now left).
    now apply filter_In in Hm. }
  unfold function_contains in Hin. apply andb_prop in Hin.
  destruct Hin as [Hlo Hhi]. apply Z.leb_le in Hlo. apply Z.ltb_lt in Hhi.
  destruct (ResolveStackFrameSymbols_resolves com path rva buf ibuf
              (session_of_store st)
              S_OK (symbol_of_function f)
              (DWORD_to_LONG (rva - functionStartAddress f))
              S_OK (enum_of_list [lineNumber_of_record r])
              S_OK (lineNumber_of_record r)
              S_OK (lineNumber r)
              S_OK {| get_fileName := (S_OK, Some (sourceFileName r)) |}
              S_OK (Some (sourceFileName r)))
    as [tr Hrun]; try reflexivity; try assumption.
  - simpl. now rewrite (filter_singleton_find _ _ _ Hf).
  - simpl. now rewrite Hr.
  - eexists; exists tr. split; [exact Hrun|]. simpl.
    repeat split.
    + intros Hd. apply DWORD_to_LONG_small. lia.
    + intros Hd. apply DWORD_to_LONG_small. lia.
    + apply GetFunctionName_nonempty.
    + apply GetFunctionName_symbol_of_function.
    + apply DWORD_to_LONG_small.
    + apply DWORD_to_LONG_range.
    + apply DWORD_to_LONG_range.
    + apply DWORD_to_LONG_range.
    + apply DWORD_to_LONG_range.
Qed.

Lemma resolve_unique_function_and_line_witness :
  opens_pdb_session (com_of_store sample_store) "x64.pdb" (session_of_store sample_store) /\
  List.length (filter (function_contains 4100) (functions sample_store)) = 1%nat /\
  List.length (filter (line_covers 4100) (lineRecords sample_store)) = 1%nat /\
  exists out tr,
    ResolveStackFrameSymbols (com_of_store sample_store) "x64.pdb" 4100 "" "" [] =
      Val (S_OK, out) tr /\
    DisplacementOut out = DWORD_to_LONG (4100 - 4096) /\
    (4100 - 4096 < 2147483648 -> DisplacementOut out = 4100 - 4096) /\
    (64 <= 2147483648 -> DisplacementOut out = 4100 - 4096) /\
    SysStringLen (FunctionNameOut out) <> 0 /\
    FunctionNameOut out = Some "func1" /\
    FileNameOut out = Some "x64.c" /\
    LineNumberOut out = DWORD_to_LONG 10 /\
    (0 <= 10 < 2147483648 -> LineNumberOut out = 10) /\
    in_LONG (DisplacementOut out) /\ in_LONG (LineNumberOut out).
Proof.
  assert (Hopen : opens_pdb_session (com_of_store sample_store) "x64.pdb"
                    (session_of_store sample_store)).
  { exists S_OK, (dataSource_of_store sample_store), S_OK.
    repeat split; reflexivity. }
  split; [exact Hopen|]. split; [reflexivity|]. split; [reflexivity|].
  exact (resolve_unique_function_and_line sample_store (com_of_store sample_store)
           "x64.pdb" 4100 "" ""
           {| functionStartAddress := 4096; functionLength := 64;
              undecoratedName := "func1"; rawName := "?func1@@YAXXZ" |}
           {| lineStartAddress := 4096; lineLength := 16;
              sourceFileName := "x64.c"; lineNumber := 10 |}
           Hopen eq_refl eq_refl).
Defined.

(** A function of three gigabytes and an address far inside it: the
    displacement that comes back is the offset reduced to a [LONG]. *)
Example displacement_beyond_LONG :
  let st := {| functions := [ {| functionStartAddress := 0;
                                 functionLength := 4000000000;
                                 undecoratedName := "huge"; rawName := "" |} ];
               lineRecords := [ {| lineStartAddress := 0; lineLength := 4000000000;
                                   sourceFileName := "huge.c"; lineNumber := 1 |} ];
               identity := sample_identity |} in
  returned (ResolveStackFrameSymbols (com_of_store st) "huge.pdb" 3000000000 "" "" []) =
  Some (S_OK, {| FileNameOut := Some "huge.c";
                 LineNumberOut := 1;
                 FunctionNameOut := Some "huge";
                 DisplacementOut := -1294967296;
                 ErrorMessageOut := Some "" |}).
Proof. reflexivity. Qed.

(** ** Sessions that behave alike give calls that behave alike *)

Lemma ResolveStackFrameSymbols_session_congruence
    (f g : IDiaSession -> IDiaSession) (com : COM) (path : string) (rva : DWORD)
    (buf ibuf : string) (tr : list Event) :
  (forall sess out tr',
      ResolveStackFrameSymbolsInternal (f sess) rva out ibuf tr' =
      ResolveStackFrameSymbolsInternal (g sess) rva out ibuf tr') ->
  ResolveStackFrameSymbols (com_map_session f com) path rva buf ibuf tr =
  ResolveStackFrameSymbols (com_map_session g com) path rva buf ibuf tr.
Proof.
  intros Hfg.
  unfold ResolveStackFrameSymbols, bind; simpl.
  destruct (FAILED (CoInitialize com)); [reflexivity|].
  destruct (CoCreateInstance com 0) as [h0 [ds|]]; simpl;
    destruct (FAILED h0); try reflexivity.
  destruct (FAILED (loadDataFromPdb ds path)); [reflexivity|].
  destruct (openSession ds) as [h1 [sess|]]; simpl;
    destruct (FAILED h1); try reflexivity.
  now rewrite Hfg.
Qed.

Lemma Internal_first_line_only (sess : IDiaSession) (hL : HRESULT)
    (r : IDiaLineNumber) (rest : list IDiaLineNumber)
    (rva : DWORD) (out : ResolveOut) (buf : string) (tr : list Event) :
  ResolveStackFrameSymbolsInternal
    (session_with_lines sess (hL, Some (enum_of_list (r :: rest)))) rva out buf tr =
  ResolveStackFrameSymbolsInternal
    (session_with_lines sess (hL, Some (enum_of_list [r]))) rva out buf tr.
Proof. reflexivity. Qed.

(** ** Checking traces *)

Lemma all_splits_sound (P : list Event -> list Event -> bool) (post pre : list Event) :
  all_splits P pre post = true ->
  forall a b, post = a ++ b -> P (pre ++ a) b = true.
Proof.
  revert pre. induction post as [|e post IH]; intros pre H a b Hab; simpl in H;
    apply andb_prop in H; destruct H as [Hhere Hrest].
  - destruct a; [|discriminate]. simpl in Hab; subst b.
    now rewrite app_nil_r.
  - destruct a as [|x a]; simpl in Hab.
    + subst b. now rewrite app_nil_r.
    + injection Hab as -> ->.
      specialize (IH (pre ++ [x]) Hrest a b eq_refl).
      now rewrite <- app_assoc in IH.
Qed.

Lemma never_both_open_check (tr : list Event) :
  all_splits never_both_open_at [] tr = true -> never_both_open tr.
Proof.
  intros H pre post Htr [Hm Hs].
  pose proof (all_splits_sound _ _ _ H pre post Htr) as Hc.
  simpl in Hc. unfold never_both_open_at in Hc.
  apply Z.ltb_lt in Hm, Hs. rewrite Hm, Hs in Hc. discriminate.
Qed.

Lemma module_released_before_store_check (tr : list Event) :
  all_splits module_released_at [] tr = true -> module_released_before_store tr.
Proof.
  intros H pre h post Htr Hh.
  pose proof (all_splits_sound _ _ _ H pre _ Htr) as Hc.
  simpl in Hc. rewrite Hh in Hc. now apply Z.eqb_eq.
Qed.

Lemma com_released_before_store_check (tr : list Event) :
  com_released_before_store tr -> all_splits com_released_at [] tr = true.
Proof.
  intros H.
  assert (G : forall post pre, tr = pre ++ post ->
                all_splits com_released_at pre post = true).
  { induction post as [|e post IH]; intros pre Htr; simpl.
    - reflexivity.
    - apply andb_true_intro; split.
      + destruct e; try reflexivity.
        destruct (store_handle h) eqn:Hh; [|reflexivity].
        apply Z.eqb_eq. exact (H pre h post Htr Hh).
      + apply IH. now rewrite <- app_assoc. }
  now apply G.
Qed.

Lemma com_held_throughout_check (tr : list Event) :
  all_splits com_held_at [] tr = true -> com_held_throughout tr.
Proof.
  intros H pre e post Htr Hne.
  pose proof (all_splits_sound _ _ _ H pre _ Htr) as Hc.
  simpl in Hc. destruct pre; [contradiction|]. now apply Z.eqb_eq.
Qed.
(** ** Stepping through a call *)

(** One step of the case analysis of a call: on the status of the pending
    step, on the answer of the provider, on the pointer it handed out. *)
Ltac step_call :=
  match goal with
  | |- context [FAILED ?h] => destruct (FAILED h) eqn:?
  | |- context [match ?x with (_, _) => _ end] => destruct x as [? ?] eqn:?
  | |- context [match ?p with Some _ => _ | None => _ end] => destruct p
  | |- context [if ?c then _ else _] => destruct c eqn:?
  end; cbn.

Ltac unfold_call :=
  unfold MatchModuleWithPdbFile, ResolveStackFrameSymbols,
         ResolveStackFrameSymbolsInternal,
         bind, emit, out_ptr, deref, Release_if_not_NULL, Release, ret;
  simpl.

(** ** [memcmp] and the diagnostic text *)

Lemma Byte_to_N_inj (a b : byte) : Byte.to_N a = Byte.to_N b -> a = b.
Proof.
  intros H. pose proof (Byte.of_to_N a) as Ha. rewrite H, Byte.of_to_N in Ha.
  congruence.
Qed.

Lemma memcmp_zero_iff (n : nat) (p q : list byte) :
  List.length p = n -> List.length q = n -> (memcmp p q n = 0 <-> p = q).
Proof.
  revert p q. induction n as [|n IH]; intros p q Hp Hq.
  - destruct p, q; try discriminate. simpl. tauto.
  - destruct p as [|a p], q as [|b q]; try discriminate.
    simpl in Hp, Hq. injection Hp as Hp. injection Hq as Hq. simpl.
    destruct (N.compare_spec (Byte.to_N a) (Byte.to_N b)) as [He|Hl|Hg].
    + apply Byte_to_N_inj in He. subst b.
      rewrite (IH p q Hp Hq). split; [congruence|]. now injection 1.
    + split; [discriminate|]. injection 1 as -> _. lia.
    + split; [discriminate|]. injection 1 as -> _. lia.
Qed.

Lemma StringCchPrintfW_nonempty (what : string) (Hr : HRESULT) :
  SysStringLen (Some (StringCchPrintfW what Hr)) <> 0.
Proof.
  unfold StringCchPrintfW.
  change (countof_ErrorMessageFmtBuffer - 1)%nat with 255%nat.
  destruct what; cbn [append substring SysStringLen String.length]; lia.
Qed.

(** ** C2: the match result is the equality of the identity triples *)

(** C2.  When every query succeeds, [MatchModuleWithPdbFile] returns [S_OK]
    and [IsMatched] is true exactly when the module's and the debug store's
    triples agree on guid, signature and age (a mismatch in any field gives
    false with [S_OK]).  A call that returns a failure status leaves
    [IsMatched] false and returns a non-empty diagnostic formatted with that
    status; a call that returns without a failure status returns [S_OK] and
    every query of it has succeeded. *)
Theorem match_reflects_triple_equality (com : COM) (ExePath PdbPath buf : string) :
  (forall tExe tPdb : IdentityTriple,
      identity_queries_succeed com ExePath PdbPath tExe tPdb ->
      List.length (guid tExe) = sizeof_GUID ->
      List.length (guid tPdb) = sizeof_GUID ->
      exists b tr,
        MatchModuleWithPdbFile com ExePath PdbPath buf [] =
          Val (S_OK, {| IsMatched := b;
                        MatchErrorMessageOut := SysAllocString buf |}) tr /\
        (b = true <->
         guid tExe = guid tPdb /\ signature tExe = signature tPdb /\
         age tExe = age tPdb)) /\
  match MatchModuleWithPdbFile com ExePath PdbPath buf [] with
  | Val (hr, out) _ =>
      (FAILED hr = true ->
       IsMatched out = false /\
       (exists what, MatchErrorMessageOut out = Some (StringCchPrintfW what hr)) /\
       SysStringLen (MatchErrorMessageOut out) <> 0) /\
      (FAILED hr = false ->
       hr = S_OK /\
       exists tExe tPdb, identity_queries_succeed com ExePath PdbPath tExe tPdb)
  | Fault _ => True
  end.
Proof.
  split.
  - intros tExe tPdb (Hinit & HE & HP) HlE HlP.
    destruct HE as (h0 & ds0 & Hc0 & Hh0 & Hl0 & R0).
    destruct R0 as (hS0 & sess0 & hG0 & sym0 & hg0 & hs0 & ha0 &
                    Ho0 & HhS0 & Hg0 & HhG0 & Hgu0 & Hhg0 & Hsi0 & Hhs0 & Hag0 & Hha0).
    destruct HP as (h1 & ds1 & Hc1 & Hh1 & Hl1 & R1).
    destruct R1 as (hS1 & sess1 & hG1 & sym1 & hg1 & hs1 & ha1 &
                    Ho1 & HhS1 & Hg1 & HhG1 & Hgu1 & Hhg1 & Hsi1 & Hhs1 & Hag1 & Hha1).
    unfold_call.
    rewrite Hinit, Hc0; simpl. rewrite Hh0, Hl0, Ho0; simpl.
    rewrite HhS0, Hg0; simpl. rewrite HhG0, Hgu0, Hhg0, Hsi0, Hhs0, Hag0, Hha0; simpl.
    rewrite Hc1; simpl. rewrite Hh1, Hl1, Ho1; simpl.
    rewrite HhS1, Hg1; simpl. rewrite HhG1, Hgu1, Hhg1, Hsi1, Hhs1, Hag1, Hha1; simpl.
    eexists; eexists; split; [reflexivity|].
    rewrite !andb_true_iff, !Z.eqb_eq, (memcmp_zero_iff sizeof_GUID _ _ HlP HlE).
    intuition congruence.
  - unfold_call.
    repeat step_call; try exact I.
    all: split; intros Hf; try discriminate.
    all: try (split; [reflexivity|]; split;
              [eexists; reflexivity | apply StringCchPrintfW_nonempty]).
    split; [reflexivity|].
    eexists (Build_IdentityTriple _ _ _), (Build_IdentityTriple _ _ _).
    unfold identity_queries_succeed, reads_identity; simpl.
    repeat first [ eassumption | split | eexists ].
Qed.

Lemma match_reflects_triple_equality_witness :
  identity_queries_succeed (com_of_stores sample_store stale_store)
    "x64.dll" "x64.pdb" (identity sample_store) (identity stale_store) /\
  exists b tr,
    MatchModuleWithPdbFile (com_of_stores sample_store stale_store)
      "x64.dll" "x64.pdb" "" [] =
      Val (S_OK, {| IsMatched := b; MatchErrorMessageOut := SysAllocString "" |}) tr /\
    (b = true <->
     guid (identity sample_store) = guid (identity stale_store) /\
     signature (identity sample_store) = signature (identity stale_store) /\
     age (identity sample_store) = age (identity stale_store)).
Proof.
  assert (H : identity_queries_succeed (com_of_stores sample_store stale_store)
                "x64.dll" "x64.pdb" (identity sample_store) (identity stale_store)).
  { unfold identity_queries_succeed, reads_identity; simpl.
    repeat first [ reflexivity | split | eexists ]. }
  split; [exact H|].
  exact (proj1 (match_reflects_triple_equality
                  (com_of_stores sample_store stale_store) "x64.dll" "x64.pdb" "")
               (identity sample_store) (identity stale_store) H eq_refl eq_refl).
Defined.

(** The same module and store: a match.  The age off by one: no match, and
    no error.  A store that does not load: an error, a diagnostic, no
    match. *)
Example match_same_identity :
  returned (MatchModuleWithPdbFile (com_of_stores sample_store sample_store)
              "x64.dll" "x64.pdb" "" []) =
  Some (S_OK, {| IsMatched := true; MatchErrorMessageOut := Some "" |}).
Proof. reflexivity. Qed.

Example match_age_off_by_one :
  returned (MatchModuleWithPdbFile (com_of_stores sample_store stale_store)
              "x64.dll" "x64.pdb" "" []) =
  Some (S_OK, {| IsMatched := false; MatchErrorMessageOut := Some "" |}).
Proof. reflexivity. Qed.

Example match_load_failure :
  returned (MatchModuleWithPdbFile (com_load_fails E_PDB_NOT_FOUND)
              "x64.dll" "x64.pdb" "" []) =
  Some (E_PDB_NOT_FOUND,
        {| IsMatched := false;
           MatchErrorMessageOut :=
             Some "Failed to load exe file (HRESULT: 0x806D0005)" |}).
Proof. reflexivity. Qed.

(** ** C8: the module handle and the debug-store handle over time *)

(** C8 (amended).  In every execution of [MatchModuleWithPdbFile] the
    module's data source, session and global scope are released before any
    object of the debug store is acquired, and at no point is an object of
    each held.  The COM initialisation is not undone in between: it is made
    once by the first call of the execution, is held at every later point
    before the last, and an execution that returns ends by undoing it. *)
Theorem module_handle_released_before_store_opens
    (com : COM) (ExePath PdbPath buf : string) :
  match MatchModuleWithPdbFile com ExePath PdbPath buf [] with
  | Val _ tr =>
      module_released_before_store tr /\ never_both_open tr /\
      com_held_throughout tr /\ com_depth tr = 0 /\
      List.last tr EvCoInitialize = EvCoUninitialize
  | Fault tr =>
      module_released_before_store tr /\ never_both_open tr /\
      com_held_throughout tr
  end.
Proof.
  unfold_call.
  repeat step_call.
  all: repeat split;
    first [ apply never_both_open_check; reflexivity
          | apply module_released_before_store_check; reflexivity
          | apply com_held_throughout_check; reflexivity
          | reflexivity ].
Qed.

(** With everything succeeding, COM is still initialised when the data
    source of the debug store is created: the claim that the module's
    provider-global initialisation is released first does not hold. *)
Lemma com_still_initialized_when_store_opens :
  let run := MatchModuleWithPdbFile (com_of_stores sample_store sample_store)
               "x64.dll" "x64.pdb" "" [] in
  let pre := [EvCoInitialize; EvAcquire (HDataSource 0); EvAcquire (HSession 0);
              EvAcquire (HGlobalScope 0); EvRelease (HGlobalScope 0);
              EvRelease (HSession 0); EvRelease (HDataSource 0)] in
  let post := [EvAcquire (HSession 1); EvAcquire (HGlobalScope 1);
               EvRelease (HGlobalScope 1); EvRelease (HSession 1);
               EvRelease (HDataSource 1); EvCoUninitialize] in
  returned run = Some (S_OK, {| IsMatched := true; MatchErrorMessageOut := Some "" |}) /\
  trace_of run = pre ++ EvAcquire (HDataSource 1) :: post /\
  store_handle (HDataSource 1) = true /\
  com_depth pre = 1 /\
  ~ com_released_before_store (trace_of run).
Proof.
  cbv zeta.
  split; [reflexivity|]. split; [reflexivity|].
  split; [reflexivity|]. split; [reflexivity|].
  intros H. apply com_released_before_store_check in H. discriminate H.
Qed.

(** ** C3: zero or several line records *)

(** C3 (amended).  For every session and RVA for which an enclosing function
    symbol is found, when the line-record query yields more than one line
    record (the sequence [r :: rest]) [ResolveStackFrameSymbols] does not
    fail on that account: it fetches one record, the first, and, the reads
    of that record succeeding, returns [S_OK] with the file name and line
    number of that record.  Nothing is said here of the case of no line
    record. *)
Theorem first_line_record_is_used
    (com : COM) (path : string) (rva : DWORD) (buf ibuf : string)
    (sess : IDiaSession) (hS : HRESULT) (sym : IDiaSymbol) (d : LONG)
    (hL : HRESULT) (r : IDiaLineNumber) (rest : list IDiaLineNumber)
    (hN : HRESULT) (ln : DWORD) (hF : HRESULT) (src : IDiaSourceFile)
    (hFN : HRESULT) (fn : BSTR) :
  opens_pdb_session com path sess ->
  findSymbolByRVAEx sess rva SymTagFunction = (hS, Some sym, d) -> FAILED hS = false ->
  findLinesByRVA sess rva 1 = (hL, Some (enum_of_list (r :: rest))) ->
  FAILED hL = false ->
  get_lineNumber r = (hN, ln) -> FAILED hN = false ->
  get_sourceFile r = (hF, Some src) -> FAILED hF = false ->
  get_fileName src = (hFN, fn) -> FAILED hFN = false ->
  exists tr,
    ResolveStackFrameSymbols com path rva buf ibuf [] =
    Val (S_OK, {| FileNameOut := fn;
                  LineNumberOut := DWORD_to_LONG ln;
                  FunctionNameOut := GetFunctionName sym;
                  DisplacementOut := d;
                  ErrorMessageOut := SysAllocString buf |}) tr.
Proof.
  intros Hopen HS HhS HL HhL HN HhN HF HhF HFN HhFN.
  exact (ResolveStackFrameSymbols_resolves com path rva buf ibuf sess
           hS sym d hL (enum_of_list (r :: rest)) S_OK r hN ln hF src hFN fn
           Hopen HS HhS HL HhL eq_refl eq_refl HN HhN HF HhF HFN HhFN).
Qed.

(** The sample store at 4116: inside [func1], covered by two line records. *)
Lemma first_line_record_is_used_witness :
  let r1 := {| lineStartAddress := 4112; lineLength := 16;
               sourceFileName := "x64.c"; lineNumber := 11 |} in
  let r2 := {| lineStartAddress := 4112; lineLength := 8;
               sourceFileName := "inline.h"; lineNumber := 7 |} in
  opens_pdb_session (com_of_store sample_store) "x64.pdb" (session_of_store sample_store) /\
  filter (line_covers 4116) (lineRecords sample_store) = [r1; r2] /\
  exists tr,
    ResolveStackFrameSymbols (com_of_store sample_store) "x64.pdb" 4116 "" "" [] =
    Val (S_OK, {| FileNameOut := Some "x64.c";
                  LineNumberOut := DWORD_to_LONG 11;
                  FunctionNameOut :=
                    GetFunctionName
                      (symbol_of_function
                         {| functionStartAddress := 4096; functionLength := 64;
                            undecoratedName := "func1"; rawName := "?func1@@YAXXZ" |});
                  DisplacementOut := 20;
                  ErrorMessageOut := SysAllocString "" |}) tr.
Proof.
  cbv zeta.
  assert (Hopen : opens_pdb_session (com_of_store sample_store) "x64.pdb"
                    (session_of_store sample_store)).
  { exists S_OK, (dataSource_of_store sample_store), S_OK.
    repeat split; reflexivity. }
  split; [exact Hopen|]. split; [reflexivity|].
  exact (first_line_record_is_used (com_of_store sample_store) "x64.pdb" 4116 "" ""
           (session_of_store sample_store) S_OK _ 20 S_OK _ _
           S_OK 11 S_OK {| get_fileName := (S_OK, Some "x64.c") |} S_OK (Some "x64.c")
           Hopen eq_refl eq_refl eq_refl eq_refl eq_refl eq_refl
           eq_refl eq_refl eq_refl eq_refl).
Defined.

(** An address inside a function and covered by two line records: the call
    does not fail, it answers [S_OK] with the first of the two. *)
Lemma two_line_records_do_not_fail :
  let run := ResolveStackFrameSymbols (com_of_store sample_store)
               "x64.pdb" 4116 "" "" [] in
  List.length (filter (function_contains 4116) (functions sample_store)) = 1%nat /\
  List.length (filter (line_covers 4116) (lineRecords sample_store)) = 2%nat /\
  returned run =
    Some (S_OK, {| FileNameOut := Some "x64.c";
                   LineNumberOut := 11;
                   FunctionNameOut := Some "func1";
                   DisplacementOut := 20;
                   ErrorMessageOut := Some "" |}) /\
  FAILED S_OK = false.
Proof. cbv zeta. repeat split. Qed.

(** An address inside a function and covered by no line record: the
    enumerator answers [S_FALSE], which the [Count != 1] branch returns
    unchanged.  The status is not a failure status, the outputs are reset. *)
Example no_line_record_returns_S_FALSE :
  List.length (filter (line_covers 4150) (lineRecords sample_store)) = 0%nat /\
  returned (ResolveStackFrameSymbols (com_of_store sample_store)
              "x64.pdb" 4150 "" "" []) =
    Some (S_FALSE, {| FileNameOut := None;
                      LineNumberOut := 0;
                      FunctionNameOut := None;
                      DisplacementOut := 0;
                      ErrorMessageOut := Some "" |}) /\
  FAILED S_FALSE = false.
Proof. repeat split. Qed.

(** Whatever follows the first line record is never looked at. *)
Lemma ResolveStackFrameSymbols_first_line_only
    (com : COM) (path : string) (rva : DWORD) (buf ibuf : string) (tr : list Event)
    (hL : HRESULT) (r : IDiaLineNumber) (rest : list IDiaLineNumber) :
  ResolveStackFrameSymbols
    (com_map_session
       (fun s => session_with_lines s (hL, Some (enum_of_list (r :: rest)))) com)
    path rva buf ibuf tr =
  ResolveStackFrameSymbols
    (com_map_session
       (fun s => session_with_lines s (hL, Some (enum_of_list [r]))) com)
    path rva buf ibuf tr.
Proof.
  apply ResolveStackFrameSymbols_session_congruence.
  intros sess out tr'. apply Internal_first_line_only.
Qed.

(** ** C10: a failing name query only advances the fallback chain *)

Lemma opens_pdb_session_map (f : IDiaSession -> IDiaSession) (com : COM)
    (path : string) (sess : IDiaSession) :
  opens_pdb_session com path sess ->
  opens_pdb_session (com_map_session f com) path (f sess).
Proof.
  intros (h0 & ds & h1 & Hinit & Hcreate & Hh0 & Hload & Hopen & Hh1).
  exists h0, (dataSource_map_session f ds), h1. simpl.
  rewrite Hcreate. simpl. rewrite Hopen. simpl. now repeat split.
Qed.

(** The name answers reach nothing but the function name: status, trace,
    line results, displacement and diagnostic of the internal function are
    the same for any two pairs of name answers. *)
Lemma Internal_names_only_name (sess : IDiaSession) (u n u' n' : HRESULT * BSTR)
    (rva : DWORD) (out : ResolveOut) (buf : string) (tr : list Event) :
  same_but_function_name
    (ResolveStackFrameSymbolsInternal (session_with_names sess u n) rva out buf tr)
    (ResolveStackFrameSymbolsInternal (session_with_names sess u' n') rva out buf tr).
Proof.
  unfold same_but_function_name, ResolveStackFrameSymbolsInternal; simpl.
  destruct (findSymbolByRVAEx sess rva SymTagFunction) as [[h p] d].
  destruct p as [sym|]; simpl; unfold bind; simpl;
    destruct (FAILED h); simpl; try (now repeat split).
  rewrite !GetFunctionName_with_names.
  generalize (display_name_spec (answered_name u) (answered_name n)).
  generalize (display_name_spec (answered_name u') (answered_name n')).
  intros s1 s2.
  destruct (findLinesByRVA sess rva 1) as [hl pe].
  destruct pe as [enum|]; simpl; destruct (FAILED hl); simpl; try (now repeat split).
  destruct (Next enum 1) as [[hn pl] cnt].
  destruct pl as [line|]; simpl;
    destruct (FAILED hn || negb (cnt =? 1)); simpl; try (now repeat split).
  destruct (get_lineNumber line) as [hln ln].
  destruct (FAILED hln); simpl; try (now repeat split).
  destruct (get_sourceFile line) as [hsf psf].
  destruct psf as [src|]; simpl; destruct (FAILED hsf); simpl; try (now repeat split).
  destruct (get_fileName src) as [hfn fn].
  destruct (FAILED hfn); simpl; now repeat split.
Qed.

Lemma ResolveStackFrameSymbols_names_only_name (com : COM) (u n u' n' : HRESULT * BSTR)
    (path : string) (rva : DWORD) (buf ibuf : string) (tr : list Event) :
  same_but_function_name
    (ResolveStackFrameSymbols
       (com_map_session (fun s => session_with_names s u n) com) path rva buf ibuf tr)
    (ResolveStackFrameSymbols
       (com_map_session (fun s => session_with_names s u' n') com) path rva buf ibuf tr).
Proof.
  unfold same_but_function_name, ResolveStackFrameSymbols, bind; simpl.
  destruct (FAILED (CoInitialize com)); [now repeat split|].
  destruct (CoCreateInstance com 0) as [h0 [ds|]]; simpl;
    destruct (FAILED h0); try (now repeat split).
  destruct (FAILED (loadDataFromPdb ds path)); [now repeat split|].
  destruct (openSession ds) as [h1 [sess|]]; simpl;
    destruct (FAILED h1); try (now repeat split).
  match goal with
  | |- context [ResolveStackFrameSymbolsInternal _ _ ?o ?b ?t] =>
      pose proof (Internal_names_only_name sess u n u' n' rva o b t) as H
  end.
  unfold same_but_function_name in H.
  destruct (ResolveStackFrameSymbolsInternal (session_with_names sess u n) _ _ _ _)
    as [[hr out] t1|t1];
    destruct (ResolveStackFrameSymbolsInternal (session_with_names sess u' n') _ _ _ _)
      as [[hr' out'] t2|t2]; simpl; try contradiction.
  - destruct H as (-> & -> & Hf & Hl & Hd & _ & Hn).
    repeat split; simpl; try assumption; try reflexivity; apply Hn.
  - now subst.
Qed.

(** C10.  A name query (undecorated or raw) that answers anything but
    [S_OK] never fails the resolution and only advances the fallback chain:
    (1) the call behaves, in status, outputs and trace, exactly as if that
    query had answered [S_OK] with an empty name; (2) whatever the two name
    queries answer, the status, the trace, the file name, the line number,
    the displacement and the diagnostic are the same, so no failure of a name
    query is ever propagated; (3) when the lookup and the line record answer
    without failure, the call goes on to the line record and returns [S_OK]
    with its file and line and with the name the fallback chain gives when
    the failing query contributes nothing.  This holds of
    [ResolveStackFrameSymbols] and of [ResolveStackFrameSymbolsInternal]. *)
Theorem name_query_failure_acts_as_empty_name
    (com : COM) (path : string) (rva : DWORD) (buf ibuf : string) (tr : list Event)
    (failing other : HRESULT * BSTR) (empty : BSTR) :
  fst failing <> S_OK ->
  SysStringLen empty = 0 ->
  (ResolveStackFrameSymbols
     (com_map_session (fun s => session_with_names s failing other) com)
     path rva buf ibuf tr =
   ResolveStackFrameSymbols
     (com_map_session (fun s => session_with_names s (S_OK, empty) other) com)
     path rva buf ibuf tr) /\
  (ResolveStackFrameSymbols
     (com_map_session (fun s => session_with_names s other failing) com)
     path rva buf ibuf tr =
   ResolveStackFrameSymbols
     (com_map_session (fun s => session_with_names s other (S_OK, empty)) com)
     path rva buf ibuf tr) /\
  (forall sess out,
      ResolveStackFrameSymbolsInternal (session_with_names sess failing other)
        rva out ibuf tr =
      ResolveStackFrameSymbolsInternal (session_with_names sess (S_OK, empty) other)
        rva out ibuf tr) /\
  (forall sess out,
      ResolveStackFrameSymbolsInternal (session_with_names sess other failing)
        rva out ibuf tr =
      ResolveStackFrameSymbolsInternal (session_with_names sess other (S_OK, empty))
        rva out ibuf tr) /\
  (forall u n u' n' : HRESULT * BSTR,
      same_but_function_name
        (ResolveStackFrameSymbols
           (com_map_session (fun s => session_with_names s u n) com)
           path rva buf ibuf tr)
        (ResolveStackFrameSymbols
           (com_map_session (fun s => session_with_names s u' n') com)
           path rva buf ibuf tr)) /\
  (forall (u n u' n' : HRESULT * BSTR) sess out,
      same_but_function_name
        (ResolveStackFrameSymbolsInternal (session_with_names sess u n) rva out ibuf tr)
        (ResolveStackFrameSymbolsInternal (session_with_names sess u' n') rva out ibuf tr)) /\
  (forall (sess : IDiaSession) (hS : HRESULT) (sym : IDiaSymbol) (d : LONG)
          (hL : HRESULT) (enum : IDiaEnumLineNumbers)
          (hE : HRESULT) (line : IDiaLineNumber)
          (hN : HRESULT) (ln : DWORD) (hF : HRESULT) (src : IDiaSourceFile)
          (hFN : HRESULT) (fn : BSTR),
      opens_pdb_session com path sess ->
      findSymbolByRVAEx sess rva SymTagFunction = (hS, Some sym, d) ->
      FAILED hS = false ->
      findLinesByRVA sess rva 1 = (hL, Some enum) -> FAILED hL = false ->
      Next enum 1 = (hE, Some line, 1) -> FAILED hE = false ->
      get_lineNumber line = (hN, ln) -> FAILED hN = false ->
      get_sourceFile line = (hF, Some src) -> FAILED hF = false ->
      get_fileName src = (hFN, fn) -> FAILED hFN = false ->
      returned
        (ResolveStackFrameSymbols
           (com_map_session (fun s => session_with_names s failing other) com)
           path rva buf ibuf []) =
      Some (S_OK, {| FileNameOut := fn;
                     LineNumberOut := DWORD_to_LONG ln;
                     FunctionNameOut :=
                       Some (display_name_spec "" (answered_name other));
                     DisplacementOut := d;
                     ErrorMessageOut := SysAllocString buf |}) /\
      returned
        (ResolveStackFrameSymbols
           (com_map_session (fun s => session_with_names s other failing) com)
           path rva buf ibuf []) =
      Some (S_OK, {| FileNameOut := fn;
                     LineNumberOut := DWORD_to_LONG ln;
                     FunctionNameOut :=
                       Some (display_name_spec (answered_name other) "");
                     DisplacementOut := d;
                     ErrorMessageOut := SysAllocString buf |})).
Proof.
  intros Hf He. destruct failing as [h b]; simpl in Hf.
  pose proof (answered_name_not_S_OK h b empty Hf He) as Hn.
  assert (Hempty : answered_name (h, b) = "").
  { unfold answered_name; simpl. apply Z.eqb_neq in Hf. now rewrite Hf. }
  split; [|split; [|split; [|split; [|split; [|split]]]]].
  - apply ResolveStackFrameSymbols_session_congruence; intros.
    apply Internal_names_congruence. now rewrite Hn.
  - apply ResolveStackFrameSymbols_session_congruence; intros.
    apply Internal_names_congruence. now rewrite Hn.
  - intros. apply Internal_names_congruence. now rewrite Hn.
  - intros. apply Internal_names_congruence. now rewrite Hn.
  - intros. apply ResolveStackFrameSymbols_names_only_name.
  - intros. apply Internal_names_only_name.
  - intros sess hS sym d hL enum hE line hN ln hF src hFN fn
           Hopen HS HhS HL HhL HE HhE HN HhN HF HhF HFN HhFN.
    split.
    + destruct (ResolveStackFrameSymbols_resolves
                  (com_map_session (fun s => session_with_names s (h, b) other) com)
                  path rva buf ibuf (session_with_names sess (h, b) other)
                  hS (with_names sym (h, b) other) d hL enum hE line hN ln hF src hFN fn)
        as [tr' Hrun]; try assumption.
      * now apply (opens_pdb_session_map
                     (fun s => session_with_names s (h, b) other)).
      * simpl. now rewrite HS.
      * rewrite Hrun. simpl.
        now rewrite GetFunctionName_with_names, Hempty.
    + destruct (ResolveStackFrameSymbols_resolves
                  (com_map_session (fun s => session_with_names s other (h, b)) com)
                  path rva buf ibuf (session_with_names sess other (h, b))
                  hS (with_names sym other (h, b)) d hL enum hE line hN ln hF src hFN fn)
        as [tr' Hrun]; try assumption.
      * now apply (opens_pdb_session_map
                     (fun s => session_with_names s other (h, b))).
      * simpl. now rewrite HS.
      * rewrite Hrun. simpl.
        now rewrite GetFunctionName_with_names, Hempty.
Qed.

Lemma name_query_failure_acts_as_empty_name_witness :
  fst (E_FAIL, @None string) <> S_OK /\
  SysStringLen (Some "") = 0 /\
  ResolveStackFrameSymbols
    (com_map_session
       (fun s => session_with_names s (E_FAIL, None) (S_OK, Some "func1"))
       (com_of_store sample_store))
    "x64.pdb" 4100 "" "" [] =
  ResolveStackFrameSymbols
    (com_map_session
       (fun s => session_with_names s (S_OK, Some "") (S_OK, Some "func1"))
       (com_of_store sample_store))
    "x64.pdb" 4100 "" "" [].
Proof.
  assert (H1 : fst (E_FAIL, @None string) <> S_OK) by discriminate.
  assert (H2 : SysStringLen (Some "") = 0) by reflexivity.
  split; [exact H1|]. split; [exact H2|].
  exact (proj1 (name_query_failure_acts_as_empty_name
                  (com_of_store sample_store) "x64.pdb" 4100 "" "" []
                  (E_FAIL, None) (S_OK, Some "func1") (Some "") H1 H2)).
Defined.

(** Both name queries failing on the sample store: the call returns [S_OK]
    with the file and line of the line record and the literal (None). *)
Example both_name_queries_failing :
  returned
    (ResolveStackFrameSymbols
       (com_map_session
          (fun s => session_with_names s (E_FAIL, None) (E_FAIL, Some "ignored"))
          (com_of_store sample_store))
       "x64.pdb" 4100 "" "" []) =
  Some (S_OK, {| FileNameOut := Some "x64.c";
                 LineNumberOut := 10;
                 FunctionNameOut := Some "(None)";
                 DisplacementOut := 4;
                 ErrorMessageOut := Some "" |}).
Proof. reflexivity. Qed.

(** A failing undecorated-name query and a good raw name: the call succeeds
    with the raw name. *)
Example failing_undecorated_name_falls_back :
  returned
    (ResolveStackFrameSymbols
       (com_map_session
          (fun s => session_with_names s (E_FAIL, None) (S_OK, Some "func1"))
          (com_of_store sample_store))
       "x64.pdb" 4100 "" "" []) =
  Some (S_OK, {| FileNameOut := Some "x64.c";
                 LineNumberOut := 10;
                 FunctionNameOut := Some "func1";
                 DisplacementOut := 4;
                 ErrorMessageOut := Some "" |}).
Proof. reflexivity. Qed.

(** ** The diagnostic text and the outputs, for every provider *)

(** The four results of a resolution. *)
Lemma ResolveStackFrameSymbols_outputs_reset_unless_S_OK
    (com : COM) (path : string) (rva : DWORD) (buf ibuf : string) :
  match ResolveStackFrameSymbols com path rva buf ibuf [] with
  | Val (hr, out) _ =>
      hr <> S_OK ->
      FileNameOut out = None /\ LineNumberOut out = 0 /\
      FunctionNameOut out = None /\ DisplacementOut out = 0
  | Fault _ => True
  end.
Proof.
  unfold_call.
  repeat step_call; try exact I; intros Hne; now repeat split.
Qed.

(** Once the session is open, the diagnostic that comes back is whatever
    the format buffer of [ResolveStackFrameSymbols] held on entry: that
    buffer is never written on this path, and it is copied to the
    out-parameter after [ResolveStackFrameSymbolsInternal] has stored its
    own text there. *)
Lemma ResolveStackFrameSymbols_diagnostic_is_entry_buffer
    (com : COM) (path : string) (rva : DWORD) (buf ibuf : string)
    (sess : IDiaSession) :
  opens_pdb_session com path sess ->
  match ResolveStackFrameSymbols com path rva buf ibuf [] with
  | Val (_, out) _ => ErrorMessageOut out = Some buf
  | Fault _ => True
  end.
Proof.
  intros (h0 & ds & h1 & Hinit & Hcreate & Hh0 & Hload & Hopen & Hh1).
  unfold ResolveStackFrameSymbols, bind; simpl.
  rewrite Hinit, Hcreate; simpl. rewrite Hh0, Hload, Hopen; simpl. rewrite Hh1.
  destruct (ResolveStackFrameSymbolsInternal sess rva ResolveOut_init ibuf _)
    as [[hr out] tr|tr]; simpl; [reflexivity | exact I].
Qed.

(** A failure of one of the steps of [ResolveStackFrameSymbols] itself is
    reported with the text formatted for that step. *)
Lemma ResolveStackFrameSymbols_diagnostic_cases
    (com : COM) (path : string) (rva : DWORD) (buf ibuf : string) :
  match ResolveStackFrameSymbols com path rva buf ibuf [] with
  | Val (hr, out) _ =>
      (FAILED hr = true /\
       exists what, ErrorMessageOut out = Some (StringCchPrintfW what hr)) \/
      ErrorMessageOut out = Some buf
  | Fault _ => True
  end.
Proof.
  unfold_call.
  repeat step_call; try exact I; try (now right);
    left; (split; [assumption | eexists; reflexivity]).
Qed.

(** The status, the four results and the trace do not depend on what the
    two format buffers held on entry. *)
Lemma ResolveStackFrameSymbols_results_ignore_buffers
    (com : COM) (path : string) (rva : DWORD) (buf ibuf buf' ibuf' : string) :
  match ResolveStackFrameSymbols com path rva buf ibuf [],
        ResolveStackFrameSymbols com path rva buf' ibuf' [] with
  | Val (hr, out) tr, Val (hr', out') tr' =>
      hr = hr' /\ tr = tr' /\
      FileNameOut out = FileNameOut out' /\
      LineNumberOut out = LineNumberOut out' /\
      FunctionNameOut out = FunctionNameOut out' /\
      DisplacementOut out = DisplacementOut out'
  | Fault tr, Fault tr' => tr = tr'
  | _, _ => False
  end.
Proof.
  unfold_call.
  repeat step_call; now repeat split.
Qed.

Lemma MatchModuleWithPdbFile_results_ignore_buffer
    (com : COM) (ExePath PdbPath buf buf' : string) :
  match MatchModuleWithPdbFile com ExePath PdbPath buf [],
        MatchModuleWithPdbFile com ExePath PdbPath buf' [] with
  | Val (hr, out) tr, Val (hr', out') tr' =>
      hr = hr' /\ tr = tr' /\ IsMatched out = IsMatched out' /\
      (FAILED hr = true -> MatchErrorMessageOut out = MatchErrorMessageOut out')
  | Fault tr, Fault tr' => tr = tr'
  | _, _ => False
  end.
Proof.
  unfold_call.
  repeat step_call; repeat split; try reflexivity; discriminate.
Qed.

(** ** C4, C5, C6, C9: the diagnostic text that is returned *)

(** C4.  The claim is that a successful call returns an empty diagnostic.
    The code at a successful call whose format buffer held a text on entry:
    [ResolveStackFrameSymbols] and [MatchModuleWithPdbFile] both return
    [S_OK] together with that text, copied out of the buffer no step has
    written. *)
Theorem success_returns_buffer_contents :
  returned (ResolveStackFrameSymbols (com_of_store sample_store)
              "x64.pdb" 4100 "stale text" "" []) =
    Some (S_OK, {| FileNameOut := Some "x64.c";
                   LineNumberOut := 10;
                   FunctionNameOut := Some "func1";
                   DisplacementOut := 4;
                   ErrorMessageOut := Some "stale text" |}) /\
  returned (MatchModuleWithPdbFile (com_of_stores sample_store sample_store)
              "x64.dll" "x64.pdb" "stale text" []) =
    Some (S_OK, {| IsMatched := true;
                   MatchErrorMessageOut := Some "stale text" |}).
Proof. split; reflexivity. Qed.

(** C5.  The claim is that a failing call resets the four results and
    returns a non-empty diagnostic.  The code at a call whose symbol lookup
    fails with [E_FAIL] and whose format buffer began with a terminator: the
    four results are reset, the status is a failure, and the diagnostic is
    the empty string. *)
Theorem failed_lookup_returns_empty_diagnostic :
  returned (ResolveStackFrameSymbols (com_of_session (failing_session E_FAIL))
              "x64.pdb" 4100 "" "" []) =
    Some (E_FAIL, {| FileNameOut := None;
                     LineNumberOut := 0;
                     FunctionNameOut := None;
                     DisplacementOut := 0;
                     ErrorMessageOut := Some "" |}) /\
  FAILED E_FAIL = true /\
  SysStringLen (Some "") = 0.
Proof. repeat split. Qed.

(** C6.  The claim is that the diagnostic returned is the one formatted for
    the first failing step.  The code at a call whose symbol lookup fails
    with [E_FAIL]: [ResolveStackFrameSymbolsInternal] stores the text
    formatted for that step, and [ResolveStackFrameSymbols] then replaces it
    by the content of its own buffer. *)
Theorem diagnostic_of_internal_step_is_overwritten :
  returned (ResolveStackFrameSymbolsInternal (failing_session E_FAIL)
              4100 ResolveOut_init "" []) =
    Some (E_FAIL, {| FileNameOut := None;
                     LineNumberOut := 0;
                     FunctionNameOut := None;
                     DisplacementOut := 0;
                     ErrorMessageOut :=
                       Some "Failed to find Symbol by RVA (HRESULT: 0x80004005)" |}) /\
  returned (ResolveStackFrameSymbols (com_of_session (failing_session E_FAIL))
              "x64.pdb" 4100 "leftover" "" []) =
    Some (E_FAIL, {| FileNameOut := None;
                     LineNumberOut := 0;
                     FunctionNameOut := None;
                     DisplacementOut := 0;
                     ErrorMessageOut := Some "leftover" |}).
Proof. split; reflexivity. Qed.

(** C9.  The claim is that two calls with the same inputs and the same
    provider answers return identical outputs.  The code at two such calls
    that find different leftovers in the format buffer: the status and the
    four results agree, the diagnostic strings differ. *)
Theorem repeated_call_diagnostics_differ :
  let run1 := ResolveStackFrameSymbols (com_of_store sample_store)
                "x64.pdb" 4100 "first" "" [] in
  let run2 := ResolveStackFrameSymbols (com_of_store sample_store)
                "x64.pdb" 4100 "second" "" [] in
  returned run1 =
    Some (S_OK, {| FileNameOut := Some "x64.c";
                   LineNumberOut := 10;
                   FunctionNameOut := Some "func1";
                   DisplacementOut := 4;
                   ErrorMessageOut := Some "first" |}) /\
  returned run2 =
    Some (S_OK, {| FileNameOut := Some "x64.c";
                   LineNumberOut := 10;
                   FunctionNameOut := Some "func1";
                   DisplacementOut := 4;
                   ErrorMessageOut := Some "second" |}) /\
  returned run1 <> returned run2.
Proof.
  cbv zeta. split; [reflexivity|]. split; [reflexivity|].
  intros H. vm_compute in H. discriminate H.
Qed.

(** A failure of [findLinesByRVA] is not stored in [Hr]: the call returns
    the status of the symbol lookup, here [S_OK], with the results reset. *)
Example failed_line_query_returns_status_of_lookup :
  returned
    (ResolveStackFrameSymbols
       (com_map_session (fun s => session_with_lines s (E_FAIL, None))
                        (com_of_store sample_store))
       "x64.pdb" 4100 "" "" []) =
  Some (S_OK, {| FileNameOut := None;
                 LineNumberOut := 0;
                 FunctionNameOut := None;
                 DisplacementOut := 0;
                 ErrorMessageOut := Some "" |}).
Proof. reflexivity. Qed.

(** * Further properties of the code *)

(** ** What is held and what is released *)

Lemma held_in_bounds_check (h : Handle) (tr : list Event) :
  all_splits (held_in_bounds h) [] tr = true ->
  forall pre post, tr = pre ++ post -> 0 <= held h pre <= 1.
Proof.
  intros H pre post Htr.
  pose proof (all_splits_sound _ _ _ H pre post Htr) as Hc.
  simpl in Hc. unfold held_in_bounds in Hc.
  apply andb_prop in Hc. destruct Hc as [H0 H1].
  apply Z.leb_le in H0, H1. lia.
Qed.

(** Every handle, by cases: the first and the second object of each kind,
    and any further one. *)
Ltac each_handle h :=
  destruct h as [[|[|?]]|[|[|?]]|[|[|?]]| | | |].

(** X1.  In every execution of [MatchModuleWithPdbFile], no object is
    released that is not held and none is acquired twice; an execution that
    returns holds nothing at its end: every data source, session and global
    scope it acquired has been released, on the success path and on every
    failure path. *)
Theorem MatchModuleWithPdbFile_releases_everything
    (com : COM) (ExePath PdbPath buf : string) :
  match MatchModuleWithPdbFile com ExePath PdbPath buf [] with
  | Val _ tr =>
      (forall h, held h tr = 0) /\
      (forall h pre post, tr = pre ++ post -> 0 <= held h pre <= 1)
  | Fault tr =>
      forall h pre post, tr = pre ++ post -> 0 <= held h pre <= 1
  end.
Proof.
  unfold_call.
  repeat step_call.
  all: repeat match goal with |- _ /\ _ => split end;
    intros hdl; each_handle hdl;
    first [ reflexivity | apply held_in_bounds_check; reflexivity ].
Qed.

(** X2.  Every execution of [ResolveStackFrameSymbols] that returns has
    released the data source, the session and the source file it acquired,
    and ends by undoing the COM initialisation, whatever step failed. *)
Theorem ResolveStackFrameSymbols_releases_session_and_source
    (com : COM) (path : string) (rva : DWORD) (buf ibuf : string) :
  match ResolveStackFrameSymbols com path rva buf ibuf [] with
  | Val _ tr =>
      held (HDataSource 0) tr = 0 /\ held (HSession 0) tr = 0 /\
      held HSourceFile tr = 0 /\
      com_depth tr = 0 /\ List.last tr EvCoInitialize = EvCoUninitialize
  | Fault _ => True
  end.
Proof.
  unfold_call.
  repeat step_call; try exact I; repeat split.
Qed.

(** X3.  [ResolveStackFrameSymbols] never releases the function symbol, the
    line enumerator or the line number it obtains: what it holds of each at
    its return is what it acquired, and a call that has stored a function
    name returns holding one reference to each of the three. *)
Theorem ResolveStackFrameSymbols_keeps_symbol_and_line_objects
    (com : COM) (path : string) (rva : DWORD) (buf ibuf : string) :
  match ResolveStackFrameSymbols com path rva buf ibuf [] with
  | Val (_, out) tr =>
      held HSymbol tr = acquired HSymbol tr /\
      held HEnumLineNumbers tr = acquired HEnumLineNumbers tr /\
      held HLineNumber tr = acquired HLineNumber tr /\
      (FunctionNameOut out <> None ->
       held HSymbol tr = 1 /\ held HEnumLineNumbers tr = 1 /\ held HLineNumber tr = 1)
  | Fault tr =>
      held HSymbol tr = acquired HSymbol tr /\
      held HEnumLineNumbers tr = acquired HEnumLineNumbers tr /\
      held HLineNumber tr = acquired HLineNumber tr
  end.
Proof.
  unfold_call.
  repeat step_call; repeat split; congruence.
Qed.

(** ** The first failing step *)

(** The answers of the provider first, then the status of each step. *)
Ltac step_provider :=
  match goal with
  | |- context [CoCreateInstance ?c ?n] =>
      destruct (CoCreateInstance c n) as [? [?|]]
  | |- context [openSession ?d] => destruct (openSession d) as [? [?|]]
  | |- context [get_globalScope ?s] => destruct (get_globalScope s) as [? [?|]]
  | |- context [get_guid ?s] => destruct (get_guid s) as [? ?]
  | |- context [get_signature ?s] => destruct (get_signature s) as [? ?]
  | |- context [get_age ?s] => destruct (get_age s) as [? ?]
  | |- context [FAILED ?h] => destruct (FAILED h) eqn:?
  end; cbn.

(** X4.  [MatchModuleWithPdbFile] reports the first of its steps that
    fails: it returns the status of that step, the diagnostic formatted for
    that step with that status, and [IsMatched] false.  When no step fails,
    a call that returns returns [S_OK]. *)
Theorem MatchModuleWithPdbFile_reports_first_failure
    (com : COM) (ExePath PdbPath buf : string) :
  match first_failure (match_steps com ExePath PdbPath) with
  | Some (what, hr) =>
      returned (MatchModuleWithPdbFile com ExePath PdbPath buf []) =
      Some (hr, {| IsMatched := false;
                   MatchErrorMessageOut := Some (StringCchPrintfW what hr) |})
  | None =>
      match returned (MatchModuleWithPdbFile com ExePath PdbPath buf []) with
      | Some (hr, out) => hr = S_OK /\ MatchErrorMessageOut out = Some buf
      | None => True
      end
  end.
Proof.
  unfold first_failure, match_steps, steps_of_source.
  unfold_call.
  repeat step_provider; try reflexivity; try exact I; now split.
Qed.

(** X5.  A failure of a step that [ResolveStackFrameSymbols] makes itself
    (COM initialisation, creation of the data source, load of the PDB,
    opening of the session) is reported with the status of the first such
    step, the diagnostic formatted for it, and the four results reset. *)
Theorem ResolveStackFrameSymbols_reports_first_own_failure
    (com : COM) (path : string) (rva : DWORD) (buf ibuf : string) :
  match first_failure (resolve_steps com path) with
  | Some (what, hr) =>
      returned (ResolveStackFrameSymbols com path rva buf ibuf []) =
      Some (hr, {| FileNameOut := None;
                   LineNumberOut := 0;
                   FunctionNameOut := None;
                   DisplacementOut := 0;
                   ErrorMessageOut := Some (StringCchPrintfW what hr) |})
  | None =>
      match returned (ResolveStackFrameSymbols com path rva buf ibuf []) with
      | Some (_, out) => ErrorMessageOut out = Some buf
      | None => True
      end
  end.
Proof.
  unfold first_failure, resolve_steps.
  unfold ResolveStackFrameSymbols, bind, emit, out_ptr, deref,
         Release_if_not_NULL, Release, ret; simpl.
  destruct (FAILED (CoInitialize com)) eqn:Hi; cbn; [reflexivity|].
  destruct (CoCreateInstance com 0) as [h0 [ds|]]; cbn;
    destruct (FAILED h0) eqn:H0; cbn; try reflexivity; try exact I.
  destruct (FAILED (loadDataFromPdb ds path)) eqn:Hl; cbn; [reflexivity|].
  destruct (openSession ds) as [h1 [sess|]]; cbn;
    destruct (FAILED h1) eqn:H1; cbn; try reflexivity; try exact I.
  destruct (ResolveStackFrameSymbolsInternal sess rva ResolveOut_init ibuf _)
    as [[hr out] tr|tr]; cbn; [reflexivity | exact I].
Qed.

(** ** Statuses that are not failures *)

(** X6.  No status other than [S_OK] comes with a result: a call of
    [ResolveStackFrameSymbols] that returns a status other than [S_OK]
    leaves the four results reset.  The function name is stored whenever
    anything is: a call that stores no function name leaves the other three
    results reset, and a call that stores one returns [S_OK] and the name is
    not empty.  (The file name and the line number stored with it are what
    the provider answered, which may be a NULL name or the line 0.) *)
Theorem ResolveStackFrameSymbols_results_only_with_S_OK
    (com : COM) (path : string) (rva : DWORD) (buf ibuf : string) :
  match ResolveStackFrameSymbols com path rva buf ibuf [] with
  | Val (hr, out) _ =>
      (hr <> S_OK ->
       FileNameOut out = None /\ LineNumberOut out = 0 /\
       FunctionNameOut out = None /\ DisplacementOut out = 0) /\
      (FunctionNameOut out = None ->
       FileNameOut out = None /\ LineNumberOut out = 0 /\ DisplacementOut out = 0) /\
      (FunctionNameOut out <> None ->
       hr = S_OK /\ SysStringLen (FunctionNameOut out) <> 0)
  | Fault _ => True
  end.
Proof.
  unfold_call.
  repeat step_call; try exact I.
  all: split; [intros Hne; now repeat split|].
  all: split; [intros Hn|intros Hn]; try (now repeat split); try congruence.
  - pose proof (GetFunctionName_nonempty i1) as Hg. rewrite Hn in Hg.
    now contradiction Hg.
  - split; [reflexivity | apply GetFunctionName_nonempty].
Qed.

(** A line number and a file name answered with [S_FALSE] and nothing
    written: the call returns [S_OK] with the function name and the
    displacement, a NULL file name and the line 0. *)
Example results_with_unanswered_line_details :
  let line := {| get_lineNumber := (S_FALSE, 0);
                 get_sourceFile :=
                   (S_OK, Some {| get_fileName := (S_FALSE, None) |}) |} in
  let sess := session_with_lines (session_of_store sample_store)
                (S_OK, Some (enum_of_list [line])) in
  returned (ResolveStackFrameSymbols (com_of_session sess) "x64.pdb" 4100 "" "" []) =
  Some (S_OK, {| FileNameOut := None;
                 LineNumberOut := 0;
                 FunctionNameOut := Some "func1";
                 DisplacementOut := 4;
                 ErrorMessageOut := Some "" |}).
Proof. reflexivity. Qed.

(** X7.  The status of [findLinesByRVA] is tested but not kept: when the
    symbol lookup has answered the status [hS], not a failure, and the line
    query fails, [ResolveStackFrameSymbols] returns [hS] with the four
    results reset. *)
Theorem failed_line_query_returns_lookup_status
    (com : COM) (path : string) (rva : DWORD) (buf ibuf : string)
    (sess : IDiaSession) (hS : HRESULT) (sym : IDiaSymbol) (d : LONG) :
  opens_pdb_session com path sess ->
  findSymbolByRVAEx sess rva SymTagFunction = (hS, Some sym, d) ->
  FAILED hS = false ->
  FAILED (fst (findLinesByRVA sess rva 1)) = true ->
  returned (ResolveStackFrameSymbols com path rva buf ibuf []) =
  Some (hS, {| FileNameOut := None;
               LineNumberOut := 0;
               FunctionNameOut := None;
               DisplacementOut := 0;
               ErrorMessageOut := Some buf |}).
Proof.
  intros (h0 & ds & h1 & Hinit & Hcreate & Hh0 & Hload & Hopen & Hh1) HS HhS HL.
  unfold ResolveStackFrameSymbols, ResolveStackFrameSymbolsInternal, bind.
  simpl. rewrite Hinit, Hcreate. simpl. rewrite Hh0, Hload, Hopen. simpl.
  rewrite Hh1, HS. simpl. rewrite HhS.
  destruct (findLinesByRVA sess rva 1) as [hL [enum|]]; simpl in HL |- *;
    rewrite HL; reflexivity.
Qed.

Lemma failed_line_query_returns_lookup_status_witness :
  let com := com_map_session (fun s => session_with_lines s (E_FAIL, None))
                             (com_of_store sample_store) in
  let sess := session_with_lines (session_of_store sample_store) (E_FAIL, None) in
  opens_pdb_session com "x64.pdb" sess /\
  FAILED S_OK = false /\
  FAILED (fst (findLinesByRVA sess 4100 1)) = true /\
  returned (ResolveStackFrameSymbols com "x64.pdb" 4100 "" "" []) =
  Some (S_OK, {| FileNameOut := None;
                 LineNumberOut := 0;
                 FunctionNameOut := None;
                 DisplacementOut := 0;
                 ErrorMessageOut := Some "" |}).
Proof.
  cbv zeta.
  assert (Hopen : opens_pdb_session
                    (com_map_session (fun s => session_with_lines s (E_FAIL, None))
                                     (com_of_store sample_store))
                    "x64.pdb"
                    (session_with_lines (session_of_store sample_store) (E_FAIL, None))).
  { exists S_OK, (dataSource_map_session
                    (fun s => session_with_lines s (E_FAIL, None))
                    (dataSource_of_store sample_store)), S_OK.
    repeat split; reflexivity. }
  split; [exact Hopen|]. split; [reflexivity|]. split; [reflexivity|].
  exact (failed_line_query_returns_lookup_status _ "x64.pdb" 4100 "" "" _
           S_OK _ 4 Hopen eq_refl eq_refl eq_refl).
Defined.

(** X8.  When the line enumerator answers a status that is not a failure
    and reports a number of fetched elements other than one, the
    [Count != 1] branch returns that status as it is:
    [ResolveStackFrameSymbols] returns it, not a failure status, with the
    four results reset. *)
Theorem line_count_not_one_returns_enumerator_status
    (com : COM) (path : string) (rva : DWORD) (buf ibuf : string)
    (sess : IDiaSession) (hS : HRESULT) (sym : IDiaSymbol) (d : LONG)
    (hL : HRESULT) (enum : IDiaEnumLineNumbers)
    (hE : HRESULT) (p : option IDiaLineNumber) (count : ULONG) :
  opens_pdb_session com path sess ->
  findSymbolByRVAEx sess rva SymTagFunction = (hS, Some sym, d) ->
  FAILED hS = false ->
  findLinesByRVA sess rva 1 = (hL, Some enum) -> FAILED hL = false ->
  Next enum 1 = (hE, p, count) -> FAILED hE = false -> count <> 1 ->
  returned (ResolveStackFrameSymbols com path rva buf ibuf []) =
  Some (hE, {| FileNameOut := None;
               LineNumberOut := 0;
               FunctionNameOut := None;
               DisplacementOut := 0;
               ErrorMessageOut := Some buf |}).
Proof.
  intros (h0 & ds & h1 & Hinit & Hcreate & Hh0 & Hload & Hopen & Hh1).
  intros HS HhS HL HhL HE HhE Hc.
  apply Z.eqb_neq in Hc.
  unfold ResolveStackFrameSymbols, ResolveStackFrameSymbolsInternal, bind.
  simpl. rewrite Hinit, Hcreate. simpl. rewrite Hh0, Hload, Hopen. simpl.
  rewrite Hh1, HS. simpl. rewrite HhS, HL. simpl. rewrite HhL, HE.
  destruct p; simpl; rewrite HhE, Hc; reflexivity.
Qed.

Lemma line_count_not_one_returns_enumerator_status_witness :
  opens_pdb_session (com_of_store sample_store) "x64.pdb" (session_of_store sample_store) /\
  filter (line_covers 4150) (lineRecords sample_store) = [] /\
  FAILED S_FALSE = false /\ 0 <> 1 /\
  returned (ResolveStackFrameSymbols (com_of_store sample_store) "x64.pdb" 4150 "" "" []) =
  Some (S_FALSE, {| FileNameOut := None;
                    LineNumberOut := 0;
                    FunctionNameOut := None;
                    DisplacementOut := 0;
                    ErrorMessageOut := Some "" |}).
Proof.
  assert (Hopen : opens_pdb_session (com_of_store sample_store) "x64.pdb"
                    (session_of_store sample_store)).
  { exists S_OK, (dataSource_of_store sample_store), S_OK.
    repeat split; reflexivity. }
  assert (Hc : 0 <> 1) by discriminate.
  split; [exact Hopen|]. split; [reflexivity|]. split; [reflexivity|].
  split; [exact Hc|].
  exact (line_count_not_one_returns_enumerator_status
           (com_of_store sample_store) "x64.pdb" 4150 "" ""
           (session_of_store sample_store) S_OK _ 54 S_OK _ S_FALSE None 0
           Hopen eq_refl eq_refl eq_refl eq_refl eq_refl eq_refl Hc).
Defined.

(** ** NULL interface pointers *)

(** X9.  The pointer that [findSymbolByRVAEx] hands out is used without a
    test: when the lookup answers a status that is not a failure and hands
    out no symbol, [ResolveStackFrameSymbols] dereferences NULL and does not
    return. *)
Theorem lookup_without_symbol_does_not_return
    (com : COM) (path : string) (rva : DWORD) (buf ibuf : string)
    (sess : IDiaSession) (hS : HRESULT) (d : LONG) :
  opens_pdb_session com path sess ->
  findSymbolByRVAEx sess rva SymTagFunction = (hS, None, d) ->
  FAILED hS = false ->
  returned (ResolveStackFrameSymbols com path rva buf ibuf []) = None.
Proof.
  intros (h0 & ds & h1 & Hinit & Hcreate & Hh0 & Hload & Hopen & Hh1) HS HhS.
  unfold ResolveStackFrameSymbols, ResolveStackFrameSymbolsInternal, bind.
  simpl. rewrite Hinit, Hcreate. simpl. rewrite Hh0, Hload, Hopen. simpl.
  rewrite Hh1, HS. simpl. rewrite HhS. reflexivity.
Qed.

Lemma lookup_without_symbol_does_not_return_witness :
  opens_pdb_session (com_of_store sample_store) "x64.pdb" (session_of_store sample_store) /\
  findSymbolByRVAEx (session_of_store sample_store) 5000 SymTagFunction = (S_FALSE, None, 0) /\
  FAILED S_FALSE = false /\
  returned (ResolveStackFrameSymbols (com_of_store sample_store) "x64.pdb" 5000 "" "" []) = None.
Proof.
  assert (Hopen : opens_pdb_session (com_of_store sample_store) "x64.pdb"
                    (session_of_store sample_store)).
  { exists S_OK, (dataSource_of_store sample_store), S_OK.
    repeat split; reflexivity. }
  split; [exact Hopen|]. split; [reflexivity|]. split; [reflexivity|].
  exact (lookup_without_symbol_does_not_return (com_of_store sample_store)
           "x64.pdb" 5000 "" "" (session_of_store sample_store) S_FALSE 0
           Hopen eq_refl eq_refl).
Defined.

(** ** Calls that return *)

(** Use of the contract [H] of a call whose answer has been named: either
    the status is a failure and the step exits, or the object is there. *)
Ltac by_contract H :=
  unfold hands_out in H; cbn in H;
  match type of H with
  | FAILED ?h = false -> _ =>
      destruct (FAILED h) eqn:?; cbn;
      [ repeat step_call; discriminate
      | let o := fresh "o" in
        let Ho := fresh "Hc" in
        destruct (H eq_refl) as (o & -> & Ho); clear H; cbn ]
  end.

(** X10.  With a provider that keeps the COM contract (a call that does not
    fail hands out its object; an enumerator that reports one fetched element
    hands it out), [ResolveStackFrameSymbols] and [MatchModuleWithPdbFile]
    always return: no path of either dereferences a NULL pointer. *)
Theorem entry_points_return_under_contract
    (com : COM) (ExePath PdbPath : string) (rva : DWORD) (buf ibuf : string) :
  contract_com rva com ->
  returned (ResolveStackFrameSymbols com PdbPath rva buf ibuf []) <> None /\
  returned (MatchModuleWithPdbFile com ExePath PdbPath buf []) <> None.
Proof.
  intros Hcom. split.
  - pose proof (Hcom 0%nat) as H0.
    unfold_call.
    destruct (FAILED (CoInitialize com)); cbn; [discriminate|].
    destruct (CoCreateInstance com 0) as [h0 p0]. by_contract H0.
    destruct (FAILED (loadDataFromPdb o PdbPath)); cbn; [discriminate|].
    unfold contract_source in Hc.
    destruct (openSession o) as [h1 p1]. by_contract Hc.
    destruct Hc0 as (Hsym & Hlines & _).
    destruct (findSymbolByRVAEx o0 rva SymTagFunction) as [[hS pS] d].
    by_contract Hsym.
    destruct (findLinesByRVA o0 rva 1) as [hL pL]. by_contract Hlines.
    unfold contract_enum in Hc0.
    destruct (Next o2 1) as [[hE pE] c]; cbn in Hc0.
    destruct (FAILED hE) eqn:HhE; cbn; [destruct pE; discriminate|].
    destruct (c =? 1) eqn:Hc1; cbn; [|destruct pE; discriminate].
    apply Z.eqb_eq in Hc1.
    destruct (Hc0 eq_refl Hc1) as (line & -> & Hline). cbn.
    destruct (get_lineNumber line) as [hN ln].
    destruct (FAILED hN); cbn; [discriminate|].
    unfold contract_line in Hline.
    destruct (get_sourceFile line) as [hF pF]. by_contract Hline.
    destruct (get_fileName o3) as [hFN fn].
    destruct (FAILED hFN); cbn; discriminate.
  - pose proof (Hcom 0%nat) as H0. pose proof (Hcom 1%nat) as H1.
    unfold_call.
    destruct (FAILED (CoInitialize com)); cbn; [discriminate|].
    destruct (CoCreateInstance com 0) as [h0 p0]. by_contract H0.
    destruct (FAILED (loadDataForExe o ExePath)); cbn; [discriminate|].
    unfold contract_source in Hc.
    destruct (openSession o) as [hS0 pS0]. by_contract Hc.
    destruct Hc0 as (_ & _ & Hg).
    destruct (get_globalScope o0) as [hG0 pG0]. by_contract Hg.
    destruct (get_guid o1) as [hg0 g0].
    destruct (FAILED hg0); cbn; [discriminate|].
    destruct (get_signature o1) as [hs0 s0].
    destruct (FAILED hs0); cbn; [discriminate|].
    destruct (get_age o1) as [ha0 a0].
    destruct (FAILED ha0); cbn; [discriminate|].
    destruct (CoCreateInstance com 1) as [h1 p1]. by_contract H1.
    destruct (FAILED (loadDataFromPdb o2 PdbPath)); cbn; [discriminate|].
    unfold contract_source in Hc0.
    destruct (openSession o2) as [hS1 pS1]. by_contract Hc0.
    destruct Hc1 as (_ & _ & Hg).
    destruct (get_globalScope o3) as [hG1 pG1]. by_contract Hg.
    destruct (get_guid o4) as [hg1 g1].
    destruct (FAILED hg1); cbn; [discriminate|].
    destruct (get_signature o4) as [hs1 s1].
    destruct (FAILED hs1); cbn; [discriminate|].
    destruct (get_age o4) as [ha1 a1].
    destruct (FAILED ha1); cbn; discriminate.
Qed.

Ltac hand_out :=
  unfold hands_out; cbn; intros _; eexists; split; [reflexivity|].

Lemma entry_points_return_under_contract_witness :
  contract_com 4100 (com_of_store sample_store) /\
  returned (ResolveStackFrameSymbols (com_of_store sample_store)
              "x64.pdb" 4100 "" "" []) <> None /\
  returned (MatchModuleWithPdbFile (com_of_store sample_store)
              "x64.dll" "x64.pdb" "" []) <> None.
Proof.
  assert (H : contract_com 4100 (com_of_store sample_store)).
  { intros n.
    destruct n;
      (hand_out; unfold contract_source; hand_out;
       unfold contract_session; split; [|split];
       [ hand_out; exact I
       | hand_out; unfold contract_enum; cbn; intros _ _;
         eexists; split; [reflexivity|]; unfold contract_line; hand_out; exact I
       | hand_out; exact I ]). }
  split; [exact H|].
  exact (entry_points_return_under_contract (com_of_store sample_store)
           "x64.dll" "x64.pdb" 4100 "" "" H).
Defined.

(** ** What each entry point leaves alone *)

(** X11.  [MatchModuleWithPdbFile] touches the debug store only after it
    has read the whole identity triple of the module: in every execution
    that acquires an object of the debug store, COM was initialised, the
    module was loaded and its guid, signature and age were read, none with a
    failure status. *)
Theorem store_is_opened_only_after_module_identity
    (com : COM) (ExePath PdbPath buf : string) :
  acquires_store (trace_of (MatchModuleWithPdbFile com ExePath PdbPath buf [])) = true ->
  FAILED (CoInitialize com) = false /\
  exists h ds tExe,
    CoCreateInstance com 0 = (h, Some ds) /\ FAILED h = false /\
    FAILED (loadDataForExe ds ExePath) = false /\
    reads_identity ds tExe.
Proof.
  unfold_call.
  repeat step_call; intros Hacq; try discriminate Hacq.
  all: split; [reflexivity|].
  all: eexists; eexists; eexists (Build_IdentityTriple _ _ _).
  all: unfold reads_identity; cbn.
  all: repeat first [ eassumption | split | eexists ].
Qed.

Lemma store_is_opened_only_after_module_identity_witness :
  acquires_store
    (trace_of (MatchModuleWithPdbFile (com_of_stores sample_store stale_store)
                 "x64.dll" "x64.pdb" "" [])) = true /\
  FAILED (CoInitialize (com_of_stores sample_store stale_store)) = false /\
  exists h ds tExe,
    CoCreateInstance (com_of_stores sample_store stale_store) 0 = (h, Some ds) /\
    FAILED h = false /\
    FAILED (loadDataForExe ds "x64.dll") = false /\
    reads_identity ds tExe.
Proof.
  assert (H : acquires_store
                (trace_of (MatchModuleWithPdbFile
                             (com_of_stores sample_store stale_store)
                             "x64.dll" "x64.pdb" "" [])) = true) by reflexivity.
  split; [exact H|].
  exact (store_is_opened_only_after_module_identity
           (com_of_stores sample_store stale_store) "x64.dll" "x64.pdb" "" H).
Defined.

(** X12.  [ResolveStackFrameSymbols] never reads the global scope of the
    session, hence no identity triple: its status, results and trace are the
    same whatever [get_globalScope] answers.  [MatchModuleWithPdbFile] never
    looks up a symbol or a line by address: its status, result and trace are
    the same whatever [findSymbolByRVAEx] and [findLinesByRVA] answer. *)
Theorem entry_points_use_only_their_own_queries
    (com : COM) (ExePath PdbPath : string) (rva : DWORD) (buf ibuf : string)
    (g g' : HRESULT * option IDiaSymbol)
    (fS fS' : DWORD -> SymTagEnum -> HRESULT * option IDiaSymbol * LONG)
    (fL fL' : DWORD -> DWORD -> HRESULT * option IDiaEnumLineNumbers) :
  ResolveStackFrameSymbols
    (com_map_session (fun s => session_with_globalScope s g) com)
    PdbPath rva buf ibuf [] =
  ResolveStackFrameSymbols
    (com_map_session (fun s => session_with_globalScope s g') com)
    PdbPath rva buf ibuf [] /\
  MatchModuleWithPdbFile
    (com_map_session (fun s => session_with_address_queries s fS fL) com)
    ExePath PdbPath buf [] =
  MatchModuleWithPdbFile
    (com_map_session (fun s => session_with_address_queries s fS' fL') com)
    ExePath PdbPath buf [].
Proof.
  split.
  - apply ResolveStackFrameSymbols_session_congruence. reflexivity.
  - unfold_call.
    repeat step_provider; reflexivity.
Qed.

(** ** The entry point and the internal function *)

Lemma Internal_returned_ignores_trace (sess : IDiaSession) (rva : DWORD)
    (out : ResolveOut) (buf : string) (tr tr' : list Event) :
  returned (ResolveStackFrameSymbolsInternal sess rva out buf tr) =
  returned (ResolveStackFrameSymbolsInternal sess rva out buf tr').
Proof.
  unfold_call.
  repeat step_call; reflexivity.
Qed.

(** X13.  Once the session is open, [ResolveStackFrameSymbols] returns what
    [ResolveStackFrameSymbolsInternal] returns on that session, started from
    reset results: the same status and the same four results, with the
    diagnostic replaced by the content of the entry point's own format
    buffer; it returns exactly when the internal function does. *)
Theorem ResolveStackFrameSymbols_is_internal_result
    (com : COM) (path : string) (rva : DWORD) (buf ibuf : string)
    (sess : IDiaSession) :
  opens_pdb_session com path sess ->
  returned (ResolveStackFrameSymbols com path rva buf ibuf []) =
  option_map (fun r => (fst r, set_ErrorMessageOut (snd r) (SysAllocString buf)))
             (returned (ResolveStackFrameSymbolsInternal sess rva
                          ResolveOut_init ibuf [])).
Proof.
  intros (h0 & ds & h1 & Hinit & Hcreate & Hh0 & Hload & Hopen & Hh1).
  rewrite (Internal_returned_ignores_trace sess rva ResolveOut_init ibuf []
             (([] ++ [EvCoInitialize]) ++ [EvAcquire (HDataSource 0)]
              ++ [EvAcquire (HSession 0)])).
  unfold ResolveStackFrameSymbols, bind; simpl.
  rewrite Hinit, Hcreate; simpl. rewrite Hh0, Hload, Hopen; simpl. rewrite Hh1.
  destruct (ResolveStackFrameSymbolsInternal sess rva ResolveOut_init ibuf _)
    as [[hr out] tr|tr]; reflexivity.
Qed.

Lemma ResolveStackFrameSymbols_is_internal_result_witness :
  opens_pdb_session (com_of_store sample_store) "x64.pdb" (session_of_store sample_store) /\
  returned (ResolveStackFrameSymbols (com_of_store sample_store)
              "x64.pdb" 4170 "left" "" []) =
  option_map (fun r => (fst r, set_ErrorMessageOut (snd r) (SysAllocString "left")))
             (returned (ResolveStackFrameSymbolsInternal (session_of_store sample_store)
                          4170 ResolveOut_init "" [])).
Proof.
  assert (Hopen : opens_pdb_session (com_of_store sample_store) "x64.pdb"
                    (session_of_store sample_store)).
  { exists S_OK, (dataSource_of_store sample_store), S_OK.
    repeat split; reflexivity. }
  split; [exact Hopen|].
  exact (ResolveStackFrameSymbols_is_internal_result (com_of_store sample_store)
           "x64.pdb" 4170 "left" "" (session_of_store sample_store) Hopen).
Defined.

(** ** The text of a diagnostic *)

Lemma substring_0_all (s : string) (n : nat) :
  (String.length s <= n)%nat -> substring 0 n s = s.
Proof.
  revert n. induction s as [|c s IH]; intros n H.
  - destruct n; reflexivity.
  - destruct n as [|n]; simpl in H; [lia|].
    simpl. f_equal. apply IH. lia.
Qed.

Lemma length_append (a b : string) :
  String.length (a ++ b)%string = (String.length a + String.length b)%nat.
Proof. induction a as [|c a IH]; simpl; [reflexivity | now rewrite IH]. Qed.

Lemma hex_digits_length (w : nat) (n : Z) (acc : string) :
  (String.length (hex_digits w n acc) <= w + String.length acc)%nat.
Proof.
  revert n acc. induction w as [|w IH]; intros n acc; simpl; [lia|].
  destruct (n / 16 =? 0); simpl; [lia|].
  specialize (IH (n / 16) (String (hex_digit (n mod 16)) acc)). simpl in IH. lia.
Qed.

Lemma hex_digit_value_hex_digit (d : Z) :
  0 <= d < 16 -> hex_digit_value (hex_digit d) = d.
Proof.
  intros H.
  assert (C : d = 0 \/ d = 1 \/ d = 2 \/ d = 3 \/ d = 4 \/ d = 5 \/ d = 6 \/ d = 7 \/
              d = 8 \/ d = 9 \/ d = 10 \/ d = 11 \/ d = 12 \/ d = 13 \/ d = 14 \/
              d = 15) by lia.
  repeat (destruct C as [->|C]; [reflexivity|]). subst d. reflexivity.
Qed.

Lemma hex_value_hex_digits (w : nat) (n : Z) (acc : string) (a : Z) :
  0 <= n < 16 ^ Z.of_nat w ->
  exists k, hex_value_from a (hex_digits w n acc) = hex_value_from (a * 16 ^ k + n) acc
            /\ 0 <= k.
Proof.
  revert n acc a. induction w as [|w IH]; intros n acc a Hn.
  - change (16 ^ Z.of_nat 0) with 1 in Hn. exists 0.
    cbn [hex_digits]. rewrite Z.pow_0_r. split; [f_equal; lia | lia].
  - rewrite Nat2Z.inj_succ, Z.pow_succ_r in Hn by lia.
    assert (E : n = 16 * (n / 16) + n mod 16) by (apply Z.div_mod; lia).
    assert (Hr : 0 <= n mod 16 < 16) by (apply Z.mod_pos_bound; lia).
    cbn [hex_digits]. destruct (n / 16 =? 0) eqn:Hq.
    + apply Z.eqb_eq in Hq. exists 1. cbn [hex_value_from].
      rewrite hex_digit_value_hex_digit by exact Hr.
      split; [|lia]. f_equal. rewrite Z.pow_1_r. lia.
    + destruct (IH (n / 16) (String (hex_digit (n mod 16)) acc) a) as (k & Hk & Hk0).
      { split; [apply Z.div_pos; lia | apply Z.div_lt_upper_bound; lia]. }
      exists (k + 1). rewrite Hk. cbn [hex_value_from].
      rewrite hex_digit_value_hex_digit by exact Hr.
      split; [|lia]. f_equal.
      rewrite Z.pow_add_r, Z.pow_1_r by lia.
      set (q := n / 16) in *. set (r := n mod 16) in *.
      rewrite E at 1. ring.
Qed.

(** The digits of [%lX] denote the status, read as an [unsigned long]. *)
Lemma hex_value_fmt_lX (hr : HRESULT) :
  hex_value (fmt_lX hr) = to_unsigned_long hr /\
  (String.length (fmt_lX hr) <= 8)%nat.
Proof.
  split.
  - unfold hex_value, fmt_lX.
    destruct (hex_value_hex_digits 8 (to_unsigned_long hr) "" 0) as (k & Hk & _).
    { unfold to_unsigned_long. change (16 ^ Z.of_nat 8) with 4294967296.
      apply Z.mod_pos_bound. lia. }
    rewrite Hk. simpl. lia.
  - pose proof (hex_digits_length 8 (to_unsigned_long hr) ""). simpl in H.
    exact H.
Qed.

(** A text of at most 234 characters before the status is never cut. *)
Lemma StringCchPrintfW_untruncated (what : string) (hr : HRESULT) :
  (String.length what <= 234)%nat ->
  StringCchPrintfW what hr = (what ++ "(HRESULT: 0x" ++ fmt_lX hr ++ ")")%string.
Proof.
  intros H. unfold StringCchPrintfW.
  apply substring_0_all.
  change (countof_ErrorMessageFmtBuffer - 1)%nat with 255%nat.
  rewrite !length_append.
  pose proof (proj2 (hex_value_fmt_lX hr)).
  change (String.length "(HRESULT: 0x") with 12%nat.
  change (String.length ")") with 1%nat. lia.
Qed.

Arguments fmt_lX : simpl never.
Arguments hex_value : simpl never.
Arguments to_unsigned_long : simpl never.

(** X14.  The 256-character buffer cuts no diagnostic: whenever
    [MatchModuleWithPdbFile] returns a failure status, its diagnostic is the
    whole text of the failing step followed by the status in upper-case
    hexadecimal between [(HRESULT: 0x] and [)]; the digits are at most
    eight and denote the status as a 32-bit unsigned number. *)
Theorem diagnostic_carries_the_status
    (com : COM) (ExePath PdbPath buf : string) :
  match MatchModuleWithPdbFile com ExePath PdbPath buf [] with
  | Val (hr, out) _ =>
      FAILED hr = true ->
      (exists what,
          MatchErrorMessageOut out =
          Some (what ++ "(HRESULT: 0x" ++ fmt_lX hr ++ ")")%string) /\
      hex_value (fmt_lX hr) = to_unsigned_long hr /\
      (String.length (fmt_lX hr) <= 8)%nat /\
      SysStringLen (MatchErrorMessageOut out) <= 255
  | Fault _ => True
  end.
Proof.
  unfold_call.
  repeat step_provider; try exact I; intros Hf; try discriminate Hf.
  all: rewrite StringCchPrintfW_untruncated by (cbn; lia).
  all: split; [eexists; reflexivity|].
  all: split; [apply hex_value_fmt_lX|].
  all: split; [apply hex_value_fmt_lX|].
  all: unfold SysStringLen; rewrite !length_append;
    match goal with
    | |- context [fmt_lX ?h] => pose proof (proj2 (hex_value_fmt_lX h)) as Hlen
    end;
    cbn [String.length]; lia.
Qed.
